(** * Mergington High School API (src/src/app.py): a shallow embedding

    The process-global state of [app.py] is the [activities] dict (activity
    name to activity record), the [logged_in_teachers] set and the
    [teachers.json] file read by [load_teachers] on every authentication.
    The handlers are modelled in a small state/exception monad: an
    exception raised by a handler leaves the state as it was when it was
    raised, as in Python, where mutations happen in place. *)

From Stdlib Require Import ZArith Ascii.
From Stdlib Require String.
From stdpp Require Import base gmap strings list.

Local Open Scope Z_scope.

(** ** Python strings and the built-ins the code uses

    A Python [str] is modelled as a Rocq [string]; its characters are taken
    as code points 0..255. *)

Module Py.

(** [str.lower()] on code points 0..255: ASCII and Latin-1 capitals are
    lowered; U+00D7 (multiplication sign) is not a letter. *)
Definition lower_char (c : ascii) : ascii :=
  let n := nat_of_ascii c in
  if (Nat.leb 65 n && Nat.leb n 90)%bool then ascii_of_nat (n + 32)
  else if (Nat.leb 192 n && Nat.leb n 222 && negb (Nat.eqb n 215))%bool
  then ascii_of_nat (n + 32)
  else c.

Fixpoint lower (s : string) : string :=
  match s with
  | String.EmptyString => String.EmptyString
  | String.String c s' => String.String (lower_char c) (lower s')
  end.

(** [s.partition(sep)] for a one-character separator: the part before the
    first occurrence, the separator, and the rest; [(s, "", "")] when the
    separator does not occur. *)
Fixpoint partition (sep : ascii) (s : string) : string * string * string :=
  match s with
  | String.EmptyString => (String.EmptyString, String.EmptyString, String.EmptyString)
  | String.String c s' =>
      if Ascii.eqb c sep then (String.EmptyString, String.String sep String.EmptyString, s')
      else let '(b, m, a) := partition sep s' in (String.String c b, m, a)
  end.

Fixpoint is_ascii (s : string) : bool :=
  match s with
  | String.EmptyString => true
  | String.String c s' => Nat.ltb (nat_of_ascii c) 128 && is_ascii s'
  end.

(** [x in l] on a list of strings. *)
Definition contains (x : string) (l : list string) : bool :=
  existsb (String.eqb x) l.

(** [l.remove(x)]: removes the first occurrence; [None] stands for the
    [ValueError] raised when there is none. *)
Fixpoint list_remove (x : string) (l : list string) : option (list string) :=
  match l with
  | [] => None
  | y :: l' => if String.eqb y x then Some l'
               else match list_remove x l' with
                    | Some r => Some (y :: r)
                    | None => None
                    end
  end.

End Py.

(** ** Data model *)

(** An entry of [activities]. *)
Record Activity := mkActivity {
  description : string;
  schedule : string;
  max_participants : Z;
  participants : list string
}.

(** An entry of the [teachers] array of [teachers.json]. *)
Record Teacher := mkTeacher {
  username : string;
  password : string
}.

(** The process state: [activities], [logged_in_teachers], and the contents
    of [teachers.json] ([None] when the file is missing or malformed, so that
    [load_teachers] raises). *)
Record State := mkState {
  activities : gmap string Activity;
  logged_in_teachers : gset string;
  teachers_json : option (list Teacher)
}.

(** Exceptions raised by the handlers. *)
Inductive Exc :=
  | HTTPException (status_code : Z) (detail : string) (headers : list (string * string))
  | TypeError      (* secrets.compare_digest on non-ASCII str *)
  | ValueError     (* list.remove of an absent element *)
  | LoadError.     (* open / json.load / data["teachers"] in load_teachers *)

Inductive Result (A : Type) :=
  | Ret (a : A)
  | Throw (e : Exc).
Arguments Ret {A} a.
Arguments Throw {A} e.

(** The handlers' monad: state passing with exceptions. *)
Definition M (A : Type) : Type := State -> Result A * State.

Definition ret {A} (a : A) : M A := fun st => (Ret a, st).
Definition raise {A} (e : Exc) : M A := fun st => (Throw e, st).
Definition bind {A B} (m : M A) (k : A -> M B) : M B :=
  fun st => match m st with
            | (Ret a, st') => k a st'
            | (Throw e, st') => (Throw e, st')
            end.
Definition get : M State := fun st => (Ret st, st).
Definition put (st : State) : M unit := fun _ => (Ret tt, st).

Notation "x <- m ;; k" := (bind m (fun x => k))
  (at level 100, m at next level, right associativity).
Notation "m ;;; k" := (bind m (fun _ => k))
  (at level 100, right associativity).

(** A response returned by a handler: status and ["message"] field. *)
Record Response := mkResponse {
  status : Z;
  message : string
}.

(** The HTTP status the client sees for a handler's outcome. *)
Definition http_status (r : Result Response) : Z :=
  match r with
  | Ret resp => status resp
  | Throw (HTTPException code _ _) => code
  | Throw _ => 500
  end.

(** The incoming request: [request.headers.get("authorization")]. *)
Record Request := mkRequest { authorization : option string }.

(** HTTPBasicCredentials as built by FastAPI's [HTTPBasic]. *)
Record HTTPBasicCredentials := mkCreds {
  cred_username : string;
  cred_password : string
}.

(** ** Credential store and authentication *)

(** [load_teachers()]: re-reads [teachers.json] on every call. *)
Definition load_teachers : M (list Teacher) :=
  st <- get ;;
  match teachers_json st with
  | Some teachers => ret teachers
  | None => raise LoadError
  end.

(** [secrets.compare_digest(a, b)] on two [str]: a [TypeError] unless both
    are ASCII-only, their equality otherwise. *)
Definition compare_digest (a b : string) : M bool :=
  if (Py.is_ascii a && Py.is_ascii b)%bool then ret (String.eqb a b)
  else raise TypeError.

(** [logged_in_teachers.add(u)] *)
Definition add_logged_in (u : string) : M unit :=
  st <- get ;;
  put (mkState (activities st) ({[u]} ∪ logged_in_teachers st) (teachers_json st)).

(** [logged_in_teachers.remove(u)] *)
Definition remove_logged_in (u : string) : M unit :=
  st <- get ;;
  put (mkState (activities st) (logged_in_teachers st ∖ {[u]}) (teachers_json st)).

(** The [for teacher in teachers] loop of [authenticate_teacher] (Path A). *)
Fixpoint authenticate_loop (credentials : HTTPBasicCredentials)
    (teachers : list Teacher) : M string :=
  match teachers with
  | [] => raise (HTTPException 401 "Invalid credentials"
                   [("WWW-Authenticate", "Basic")])
  | teacher :: rest =>
      if String.eqb (cred_username credentials) (username teacher) then
        ok <- compare_digest (cred_password credentials) (password teacher) ;;
        if ok then add_logged_in (cred_username credentials) ;;;
                   ret (cred_username credentials)
        else authenticate_loop credentials rest
      else authenticate_loop credentials rest
  end.

(** [authenticate_teacher(credentials)] (Path A). *)
Definition authenticate_teacher (credentials : HTTPBasicCredentials) : M string :=
  teachers <- load_teachers ;;
  authenticate_loop credentials teachers.

(** The [for teacher in teachers] loop of [require_teacher] (Path B). *)
Fixpoint require_loop (username' password' : string)
    (teachers : list Teacher) : M string :=
  match teachers with
  | [] => raise (HTTPException 401 "Invalid credentials" [])
  | teacher :: rest =>
      if String.eqb username' (username teacher) then
        ok <- compare_digest password' (password teacher) ;;
        if ok then ret username' else require_loop username' password' rest
      else require_loop username' password' rest
  end.

Section Handlers.

(** [base64.b64decode(param).decode()]: the decoded text, or [None] when
    one of the two calls raises (binascii.Error, ValueError on non-ASCII
    input, UnicodeDecodeError).  This is Python's library, not code of the
    application, so the handlers are stated for any such decoder. *)
Variable b64decode_text : string -> option string.

(** [require_teacher(request)] (Path B). *)
Definition require_teacher (request : Request) : M string :=
  match authorization request with
  | None => raise (HTTPException 401 "Not authenticated" [])
  | Some auth =>
      if String.eqb auth "" then raise (HTTPException 401 "Not authenticated" [])
      else
        let '(scheme, _, param) := Py.partition " "%char auth in
        if negb (String.eqb (Py.lower scheme) "basic") then
          raise (HTTPException 401 "Invalid auth scheme" [])
        else
          match b64decode_text param with
          | None => raise (HTTPException 401 "Invalid auth header" [])
          | Some decoded =>
              let '(username', _, password') := Py.partition ":"%char decoded in
              teachers <- load_teachers ;;
              require_loop username' password' teachers
          end
  end.

(** The state after [activity["participants"]] becomes [ps] in place. *)
Definition update_participants (activity_name : string) (activity : Activity)
    (ps : list string) (st : State) : State :=
  mkState
    (<[activity_name := mkActivity (description activity) (schedule activity)
                          (max_participants activity) ps]> (activities st))
    (logged_in_teachers st) (teachers_json st).

Definition set_participants (activity_name : string) (activity : Activity)
    (ps : list string) : M unit :=
  st <- get ;;
  put (update_participants activity_name activity ps st).

(** [POST /activities/{activity_name}/signup] *)
Definition signup_for_activity (activity_name email : string) (request : Request)
    : M Response :=
  teacher <- require_teacher request ;;
  st <- get ;;
  match activities st !! activity_name with
  | None => raise (HTTPException 404 "Activity not found" [])
  | Some activity =>
      if Py.contains email (participants activity) then
        raise (HTTPException 400 "Student is already signed up" [])
      else
        set_participants activity_name activity (participants activity ++ [email]) ;;;
        ret (mkResponse 200 ("Teacher " +:+ teacher +:+ " signed up " +:+ email
                             +:+ " for " +:+ activity_name))
  end.

(** [DELETE /activities/{activity_name}/unregister] *)
Definition unregister_from_activity (activity_name email : string) (request : Request)
    : M Response :=
  teacher <- require_teacher request ;;
  st <- get ;;
  match activities st !! activity_name with
  | None => raise (HTTPException 404 "Activity not found" [])
  | Some activity =>
      if negb (Py.contains email (participants activity)) then
        raise (HTTPException 400 "Student is not signed up for this activity" [])
      else
        match Py.list_remove email (participants activity) with
        | None => raise ValueError
        | Some ps =>
            set_participants activity_name activity ps ;;;
            ret (mkResponse 200 ("Teacher " +:+ teacher +:+ " unregistered " +:+ email
                                 +:+ " from " +:+ activity_name))
        end
  end.

End Handlers.

(** [POST /login] *)
Definition login (credentials : HTTPBasicCredentials) : M Response :=
  username' <- authenticate_teacher credentials ;;
  ret (mkResponse 200 ("Logged in as " +:+ username')).

(** [POST /logout] *)
Definition logout (credentials : HTTPBasicCredentials) : M Response :=
  let username' := cred_username credentials in
  st <- get ;;
  if bool_decide (username' ∈ logged_in_teachers st) then
    remove_logged_in username' ;;;
    ret (mkResponse 200 ("Logged out " +:+ username'))
  else ret (mkResponse 400 "Not logged in").

(** [GET /activities] *)
Definition get_activities : M (gmap string Activity) :=
  st <- get ;;
  ret (activities st).

(** ** The process state at start-up *)

Definition chess_club : Activity :=
  mkActivity "Learn strategies and compete in chess tournaments"
    "Fridays, 3:30 PM - 5:00 PM" 12
    ["michael@mergington.edu"; "daniel@mergington.edu"].

Definition initial_activities : gmap string Activity :=
  list_to_map [
    ("Chess Club", chess_club);
    ("Programming Class", mkActivity "Learn programming fundamentals and build software projects"
       "Tuesdays and Thursdays, 3:30 PM - 4:30 PM" 20
       ["emma@mergington.edu"; "sophia@mergington.edu"]);
    ("Gym Class", mkActivity "Physical education and sports activities"
       "Mondays, Wednesdays, Fridays, 2:00 PM - 3:00 PM" 30
       ["john@mergington.edu"; "olivia@mergington.edu"]);
    ("Soccer Team", mkActivity "Join the school soccer team and compete in matches"
       "Tuesdays and Thursdays, 4:00 PM - 5:30 PM" 22
       ["liam@mergington.edu"; "noah@mergington.edu"]);
    ("Basketball Team", mkActivity "Practice and play basketball with the school team"
       "Wednesdays and Fridays, 3:30 PM - 5:00 PM" 15
       ["ava@mergington.edu"; "mia@mergington.edu"]);
    ("Art Club", mkActivity "Explore your creativity through painting and drawing"
       "Thursdays, 3:30 PM - 5:00 PM" 15
       ["amelia@mergington.edu"; "harper@mergington.edu"]);
    ("Drama Club", mkActivity "Act, direct, and produce plays and performances"
       "Mondays and Wednesdays, 4:00 PM - 5:30 PM" 20
       ["ella@mergington.edu"; "scarlett@mergington.edu"]);
    ("Math Club", mkActivity "Solve challenging problems and participate in math competitions"
       "Tuesdays, 3:30 PM - 4:30 PM" 10
       ["james@mergington.edu"; "benjamin@mergington.edu"]);
    ("Debate Team", mkActivity "Develop public speaking and argumentation skills"
       "Fridays, 4:00 PM - 5:30 PM" 12
       ["charlotte@mergington.edu"; "henry@mergington.edu"])
  ].

(** A [teachers.json] with one teacher, used in the concrete runs below. *)
Definition sample_teachers : list Teacher := [mkTeacher "msmith" "s3cret"].

Definition initial_state : State :=
  mkState initial_activities ∅ (Some sample_teachers).

(** A stand-in decoder for concrete runs: the payload is taken as already
    decoded text. *)
Definition plain_decoder (param : string) : option string := Some param.

Definition teacher_request : Request := mkRequest (Some "Basic msmith:s3cret").

(** A [teachers.json] with a shared account whose password is empty. *)
Definition kiosk_state : State :=
  mkState initial_activities ∅ (Some [mkTeacher "kiosk" ""]).

(** A password with a non-ASCII character (U+00E9). *)
Definition accented_password : string :=
  "s3cr" +:+ String.String (ascii_of_nat 233) String.EmptyString.

(** A registry where "Chess Club" is already at its capacity. *)
Definition full_chess_club : Activity :=
  mkActivity (description chess_club) (schedule chess_club) 2 (participants chess_club).

Definition full_chess_state : State :=
  mkState (<["Chess Club" := full_chess_club]> initial_activities) ∅ (Some sample_teachers).

Example signup_chess_run :
  let '(r, st') := signup_for_activity plain_decoder "Chess Club"
                     "isabella@mergington.edu" teacher_request initial_state in
  http_status r = 200 /\
  option_map participants (activities st' !! "Chess Club") =
    Some ["michael@mergington.edu"; "daniel@mergington.edu"; "isabella@mergington.edu"].
Proof. vm_compute. split; reflexivity. Qed.

Example signup_duplicate_run :
  http_status (fst (signup_for_activity plain_decoder "Chess Club"
                     "michael@mergington.edu" teacher_request initial_state)) = 400.
Proof. vm_compute. reflexivity. Qed.

(** ** Properties of states used in the claims *)

(** No activity lists a participant twice. *)
Definition participants_nodup (st : State) : Prop :=
  map_Forall (fun _ activity => NoDup (participants activity)) (activities st).

(** The fields of an activity other than its participants. *)
Definition activity_header (activity : Activity) : string * string * Z :=
  (description activity, schedule activity, max_participants activity).

(** [st'] differs from [st] at most in the participants of [activity_name]. *)
Definition frame_of (activity_name : string) (st st' : State) : Prop :=
  logged_in_teachers st' = logged_in_teachers st /\
  teachers_json st' = teachers_json st /\
  (forall k, k <> activity_name -> activities st' !! k = activities st !! k) /\
  (activity_header <$> activities st' !! activity_name) =
    (activity_header <$> activities st !! activity_name).

(** The process at start-up, for any contents of [teachers.json]. *)
Definition start_state (teachers_file : option (list Teacher)) : State :=
  mkState initial_activities ∅ teachers_file.

(** One request served by the application, for a given base64 decoder. *)
Inductive step (dec : string -> option string) : State -> State -> Prop :=
  | step_signup activity_name email request st :
      step dec st (snd (signup_for_activity dec activity_name email request st))
  | step_unregister activity_name email request st :
      step dec st (snd (unregister_from_activity dec activity_name email request st))
  | step_login credentials st :
      step dec st (snd (login credentials st))
  | step_logout credentials st :
      step dec st (snd (logout credentials st))
  | step_get_activities st :
      step dec st (snd (get_activities st)).

(** What holds of every state the application reaches from start-up with
    [teachers.json] read as [teachers_file]. *)
Definition app_invariant (teachers_file : option (list Teacher)) (st : State) : Prop :=
  participants_nodup st /\
  (forall k, (activity_header <$> activities st !! k) =
             (activity_header <$> initial_activities !! k)) /\
  teachers_json st = teachers_file /\
  (forall u, u ∈ logged_in_teachers st ->
     exists teachers teacher, teachers_file = Some teachers /\
       teacher ∈ teachers /\ username teacher = u).

(** ** Facts about the built-ins and the monad *)

Lemma contains_spec (x : string) (l : list string) :
  Py.contains x l = true <-> x ∈ l.
Proof.
  unfold Py.contains. rewrite existsb_exists, list_elem_of_In. split.
  - intros [y [Hy Heq]]. apply String.eqb_eq in Heq. by subst.
  - intros H. exists x. split; [done | apply String.eqb_refl].
Qed.

Lemma contains_false (x : string) (l : list string) :
  x ∉ l -> Py.contains x l = false.
Proof.
  intros H. destruct (Py.contains x l) eqn:E; [|done].
  exfalso. apply H, contains_spec, E.
Qed.

Lemma list_remove_first (x : string) (l : list string) :
  x ∈ l ->
  exists pre post, l = pre ++ x :: post /\ (x ∉ pre) /\
    Py.list_remove x l = Some (pre ++ post).
Proof.
  induction l as [|y l IH]; intros Hin.
  - by apply not_elem_of_nil in Hin.
  - simpl. destruct (String.eqb y x) eqn:E.
    + apply String.eqb_eq in E. subst y.
      exists [], l. repeat split; [by apply not_elem_of_nil].
    + apply String.eqb_neq in E.
      assert (Hl : x ∈ l).
      { apply elem_of_cons in Hin as [Hin|Hin]; [congruence|done]. }
      destruct (IH Hl) as (pre & post & -> & Hpre & ->).
      exists (y :: pre), post. repeat split.
      rewrite elem_of_cons. intros [H|H]; [congruence|done].
Qed.

Lemma list_remove_absent (x : string) (l : list string) :
  x ∉ l -> Py.list_remove x l = None.
Proof.
  induction l as [|y l IH]; intros Hn; [done|]. simpl.
  destruct (String.eqb y x) eqn:E.
  - apply String.eqb_eq in E. subst. exfalso. apply Hn, elem_of_cons. by left.
  - rewrite IH; [done|]. intros H. apply Hn, elem_of_cons. by right.
Qed.

(** Path B's loop reads the state and never changes it. *)
Lemma require_loop_state (u p : string) (teachers : list Teacher) (st : State) :
  exists r, require_loop u p teachers st = (r, st).
Proof.
  induction teachers as [|t ts IH]; simpl; [by eexists|].
  destruct (String.eqb u (username t)); [|done].
  unfold bind, compare_digest, ret, raise.
  destruct (Py.is_ascii p && Py.is_ascii (password t))%bool; [|by eexists].
  destruct (String.eqb p (password t)); [by eexists|done].
Qed.

Lemma require_teacher_state (dec : string -> option string) (request : Request)
    (st : State) :
  exists r, require_teacher dec request st = (r, st).
Proof.
  unfold require_teacher, raise.
  destruct (authorization request) as [auth|]; [|by eexists].
  destruct (String.eqb auth ""); [by eexists|].
  destruct (Py.partition " "%char auth) as [[scheme sep] param].
  destruct (negb (String.eqb (Py.lower scheme) "basic")); [by eexists|].
  destruct (dec param) as [decoded|]; [|by eexists].
  destruct (Py.partition ":"%char decoded) as [[u sep'] p].
  unfold load_teachers, get, ret, raise, bind. simpl.
  destruct (teachers_json st); [apply require_loop_state | by eexists].
Qed.

Lemma require_loop_result (u p : string) (teachers : list Teacher) (st1 st2 : State) :
  fst (require_loop u p teachers st1) = fst (require_loop u p teachers st2).
Proof.
  induction teachers as [|t ts IH]; simpl; [done|].
  destruct (String.eqb u (username t)); [|done].
  unfold bind, compare_digest, ret, raise.
  destruct (Py.is_ascii p && Py.is_ascii (password t))%bool; [|done].
  destruct (String.eqb p (password t)); done.
Qed.

(** Path B's outcome depends on the state only through [teachers.json]. *)
Lemma require_teacher_result (dec : string -> option string) (request : Request)
    (st1 st2 : State) :
  teachers_json st1 = teachers_json st2 ->
  fst (require_teacher dec request st1) = fst (require_teacher dec request st2).
Proof.
  intros Hj. unfold require_teacher, raise.
  destruct (authorization request) as [auth|]; [|done].
  destruct (String.eqb auth ""); [done|].
  destruct (Py.partition " "%char auth) as [[scheme sep] param].
  destruct (negb (String.eqb (Py.lower scheme) "basic")); [done|].
  destruct (dec param) as [decoded|]; [|done].
  destruct (Py.partition ":"%char decoded) as [[u sep'] p].
  unfold load_teachers, get, ret, raise, bind. simpl. rewrite Hj.
  destruct (teachers_json st2); [apply require_loop_result | done].
Qed.

(** Unfold a registry handler and run Path B, which leaves the state as it is. *)
Ltac run_require dec request st :=
  let r := fresh "r" in let Hr := fresh "Hr" in
  destruct (require_teacher_state dec request st) as [r Hr];
  unfold signup_for_activity, unregister_from_activity, set_participants,
    bind, get, put, ret, raise;
  rewrite Hr in *; simpl in *; subst r.

(** ** The outcomes of the registry handlers, case by case *)

Section Outcomes.

Variable dec : string -> option string.
Variables (st : State) (activity_name email : string) (request : Request).

Lemma signup_auth_failed (e : Exc) :
  fst (require_teacher dec request st) = Throw e ->
  signup_for_activity dec activity_name email request st = (Throw e, st).
Proof. intros Hauth. run_require dec request st. done. Qed.

Lemma unregister_auth_failed (e : Exc) :
  fst (require_teacher dec request st) = Throw e ->
  unregister_from_activity dec activity_name email request st = (Throw e, st).
Proof. intros Hauth. run_require dec request st. done. Qed.

Variable teacher : string.
Hypothesis Hauth : fst (require_teacher dec request st) = Ret teacher.

Lemma signup_missing :
  activities st !! activity_name = None ->
  signup_for_activity dec activity_name email request st =
    (Throw (HTTPException 404 "Activity not found" []), st).
Proof. intros Hact. run_require dec request st. by rewrite Hact. Qed.

Lemma unregister_missing :
  activities st !! activity_name = None ->
  unregister_from_activity dec activity_name email request st =
    (Throw (HTTPException 404 "Activity not found" []), st).
Proof. intros Hact. run_require dec request st. by rewrite Hact. Qed.

Variable activity : Activity.
Hypothesis Hact : activities st !! activity_name = Some activity.

Lemma signup_duplicate :
  email ∈ participants activity ->
  signup_for_activity dec activity_name email request st =
    (Throw (HTTPException 400 "Student is already signed up" []), st).
Proof.
  intros Hin. run_require dec request st. rewrite Hact.
  apply contains_spec in Hin. by rewrite Hin.
Qed.

Lemma signup_new :
  email ∉ participants activity ->
  signup_for_activity dec activity_name email request st =
    (Ret (mkResponse 200 ("Teacher " +:+ teacher +:+ " signed up " +:+ email
                          +:+ " for " +:+ activity_name)),
     update_participants activity_name activity (participants activity ++ [email]) st).
Proof.
  intros Hn. run_require dec request st. rewrite Hact.
  by rewrite (contains_false _ _ Hn).
Qed.

Lemma unregister_absent :
  email ∉ participants activity ->
  unregister_from_activity dec activity_name email request st =
    (Throw (HTTPException 400 "Student is not signed up for this activity" []), st).
Proof.
  intros Hn. run_require dec request st. rewrite Hact.
  by rewrite (contains_false _ _ Hn).
Qed.

Lemma unregister_present :
  email ∈ participants activity ->
  exists pre post,
    participants activity = pre ++ email :: post /\ (email ∉ pre) /\
    unregister_from_activity dec activity_name email request st =
      (Ret (mkResponse 200 ("Teacher " +:+ teacher +:+ " unregistered " +:+ email
                            +:+ " from " +:+ activity_name)),
       update_participants activity_name activity (pre ++ post) st).
Proof.
  intros Hin. destruct (list_remove_first _ _ Hin) as (pre & post & Hps & Hpre & Hrm).
  exists pre, post. split; [done|]. split; [done|].
  run_require dec request st. rewrite Hact.
  apply contains_spec in Hin. rewrite Hin. simpl. by rewrite Hrm.
Qed.

End Outcomes.

Lemma update_participants_lookup (activity_name : string) (activity : Activity)
    (ps : list string) (st : State) :
  activities (update_participants activity_name activity ps st) !! activity_name =
    Some (mkActivity (description activity) (schedule activity)
            (max_participants activity) ps).
Proof. apply lookup_insert_eq. Qed.

(** ** Claims about the activity registry *)

(** C1: with valid Path B credentials, signing up an email that is not yet a
    participant of an existing activity returns 200 and appends the email
    exactly once, at the end of the participants list. *)
Theorem signup_appends_new_email (dec : string -> option string) (st : State)
    (activity_name email teacher : string) (request : Request) (activity : Activity) :
  fst (require_teacher dec request st) = Ret teacher ->
  activities st !! activity_name = Some activity ->
  email ∉ participants activity ->
  let '(r, st') := signup_for_activity dec activity_name email request st in
  http_status r = 200 /\
  exists activity', activities st' !! activity_name = Some activity' /\
    participants activity' = participants activity ++ [email] /\
    count_occ String.string_dec (participants activity') email = 1%nat.
Proof.
  intros Hauth Hact Hnot. rewrite (signup_new dec st activity_name email request
                                     teacher Hauth activity Hact Hnot).
  split; [done|]. eexists. split; [apply update_participants_lookup|]. simpl.
  split; [done|]. rewrite count_occ_app.
  rewrite (proj1 (count_occ_not_In String.string_dec _ _)).
  - simpl. destruct (String.string_dec email email); [done|congruence].
  - by rewrite <- list_elem_of_In.
Qed.

(** C2: with valid Path B credentials, signing up an email that already is a
    participant of an existing activity returns 400 and changes nothing. *)
Theorem signup_duplicate_rejected (dec : string -> option string) (st : State)
    (activity_name email teacher : string) (request : Request) (activity : Activity) :
  fst (require_teacher dec request st) = Ret teacher ->
  activities st !! activity_name = Some activity ->
  email ∈ participants activity ->
  let '(r, st') := signup_for_activity dec activity_name email request st in
  http_status r = 400 /\ st' = st.
Proof.
  intros Hauth Hact Hin.
  by rewrite (signup_duplicate dec st activity_name email request teacher Hauth
                activity Hact Hin).
Qed.

Lemma signup_appends_new_email_witness :
  (fst (require_teacher plain_decoder teacher_request initial_state) = Ret "msmith" /\
   activities initial_state !! "Chess Club" = Some chess_club /\
   "isabella@mergington.edu" ∉ participants chess_club) /\
  let '(r, st') := signup_for_activity plain_decoder "Chess Club"
                     "isabella@mergington.edu" teacher_request initial_state in
  http_status r = 200 /\
  exists activity', activities st' !! "Chess Club" = Some activity' /\
    participants activity' = participants chess_club ++ ["isabella@mergington.edu"] /\
    count_occ String.string_dec (participants activity') "isabella@mergington.edu" = 1%nat.
Proof.
  assert (H1 : fst (require_teacher plain_decoder teacher_request initial_state)
               = Ret "msmith") by (vm_compute; reflexivity).
  assert (H2 : activities initial_state !! "Chess Club" = Some chess_club)
    by (vm_compute; reflexivity).
  assert (H3 : "isabella@mergington.edu" ∉ participants chess_club)
    by (apply (bool_decide_unpack _); vm_compute; exact I).
  split; [split; [exact H1 | split; [exact H2 | exact H3]]|].
  exact (signup_appends_new_email plain_decoder initial_state "Chess Club"
           "isabella@mergington.edu" "msmith" teacher_request chess_club H1 H2 H3).
Defined.

Lemma signup_duplicate_rejected_witness :
  (fst (require_teacher plain_decoder teacher_request initial_state) = Ret "msmith" /\
   activities initial_state !! "Chess Club" = Some chess_club /\
   "michael@mergington.edu" ∈ participants chess_club) /\
  let '(r, st') := signup_for_activity plain_decoder "Chess Club"
                     "michael@mergington.edu" teacher_request initial_state in
  http_status r = 400 /\ st' = initial_state.
Proof.
  assert (H1 : fst (require_teacher plain_decoder teacher_request initial_state)
               = Ret "msmith") by (vm_compute; reflexivity).
  assert (H2 : activities initial_state !! "Chess Club" = Some chess_club)
    by (vm_compute; reflexivity).
  assert (H3 : "michael@mergington.edu" ∈ participants chess_club)
    by (apply (bool_decide_unpack _); vm_compute; exact I).
  split; [split; [exact H1 | split; [exact H2 | exact H3]]|].
  exact (signup_duplicate_rejected plain_decoder initial_state "Chess Club"
           "michael@mergington.edu" "msmith" teacher_request chess_club H1 H2 H3).
Defined.

(** C3: with valid Path B credentials, unregistering from an existing
    activity removes the first matching entry and returns 200 when the email
    is a participant, and returns 400 with nothing changed when it is not;
    so, from a duplicate-free list containing the email, two successive
    unregisters return 200 and then 400. *)
Theorem unregister_removes_first_match (dec : string -> option string) (st : State)
    (activity_name email teacher : string) (request : Request) (activity : Activity) :
  fst (require_teacher dec request st) = Ret teacher ->
  activities st !! activity_name = Some activity ->
  (email ∈ participants activity ->
     let '(r, st') := unregister_from_activity dec activity_name email request st in
     http_status r = 200 /\
     exists pre post activity',
       participants activity = pre ++ email :: post /\ (email ∉ pre) /\
       activities st' !! activity_name = Some activity' /\
       participants activity' = pre ++ post) /\
  (email ∉ participants activity ->
     let '(r, st') := unregister_from_activity dec activity_name email request st in
     http_status r = 400 /\ st' = st) /\
  (NoDup (participants activity) -> email ∈ participants activity ->
     let '(r1, st1) := unregister_from_activity dec activity_name email request st in
     let '(r2, st2) := unregister_from_activity dec activity_name email request st1 in
     http_status r1 = 200 /\ http_status r2 = 400).
Proof.
  intros Hauth Hact. split; [|split].
  - intros Hin.
    destruct (unregister_present dec st activity_name email request teacher Hauth
                activity Hact Hin) as (pre & post & Hps & Hpre & ->).
    split; [done|]. exists pre, post. eexists.
    split; [done|]. split; [done|]. split; [apply update_participants_lookup|done].
  - intros Hn.
    by rewrite (unregister_absent dec st activity_name email request teacher Hauth
                  activity Hact Hn).
  - intros Hnd Hin.
    destruct (unregister_present dec st activity_name email request teacher Hauth
                activity Hact Hin) as (pre & post & Hps & Hpre & ->).
    set (st1 := update_participants activity_name activity (pre ++ post) st).
    assert (Hauth1 : fst (require_teacher dec request st1) = Ret teacher).
    { rewrite <- Hauth. by apply require_teacher_result. }
    assert (Hn1 : email ∉ pre ++ post).
    { rewrite Hps in Hnd. apply NoDup_app in Hnd as (_ & Hdis & Hnd2).
      apply NoDup_cons in Hnd2 as [Hpost _].
      rewrite elem_of_app. intros [H|H]; [|done].
      apply (Hdis email H). apply elem_of_cons. by left. }
    rewrite (unregister_absent dec st1 activity_name email request teacher Hauth1 _
               (update_participants_lookup activity_name activity (pre ++ post) st) Hn1).
    done.
Qed.

Lemma unregister_removes_first_match_witness :
  (fst (require_teacher plain_decoder teacher_request initial_state) = Ret "msmith" /\
   activities initial_state !! "Chess Club" = Some chess_club) /\
  let '(r1, st1) := unregister_from_activity plain_decoder "Chess Club"
                      "michael@mergington.edu" teacher_request initial_state in
  let '(r2, st2) := unregister_from_activity plain_decoder "Chess Club"
                      "michael@mergington.edu" teacher_request st1 in
  http_status r1 = 200 /\ http_status r2 = 400.
Proof.
  assert (H1 : fst (require_teacher plain_decoder teacher_request initial_state)
               = Ret "msmith") by (vm_compute; reflexivity).
  assert (H2 : activities initial_state !! "Chess Club" = Some chess_club)
    by (vm_compute; reflexivity).
  split; [split; [exact H1 | exact H2]|].
  apply (unregister_removes_first_match plain_decoder initial_state "Chess Club"
           "michael@mergington.edu" "msmith" teacher_request chess_club H1 H2).
  - apply (bool_decide_unpack _); vm_compute; exact I.
  - apply (bool_decide_unpack _); vm_compute; exact I.
Defined.

(** C4, as claimed: for an activity name absent from the registry, signup
    and unregister return 404 whatever the credentials.  Refuted: a request
    without an Authorization header gets 401, because Path B runs first. *)
Lemma missing_activity_not_404_without_credentials :
  ~ (forall (dec : string -> option string) (st : State)
        (activity_name email : string) (request : Request),
       activities st !! activity_name = None ->
       http_status (fst (signup_for_activity dec activity_name email request st)) = 404 /\
       http_status (fst (unregister_from_activity dec activity_name email request st)) = 404).
Proof.
  intros H.
  destruct (H plain_decoder initial_state "Nonexistent Club" "isabella@mergington.edu"
              (mkRequest None)) as [H1 _].
  - vm_compute. reflexivity.
  - vm_compute in H1. discriminate.
Qed.

(** C4 (amended): for an activity name absent from the registry, signup and
    unregister change no state; they fail with 404 when Path B accepts the
    request and with Path B's own failure (401 for missing, malformed or
    wrong credentials) when it does not. *)
Theorem missing_activity_outcome (dec : string -> option string) (st : State)
    (activity_name email : string) (request : Request) :
  activities st !! activity_name = None ->
  let expected := match fst (require_teacher dec request st) with
                  | Ret _ => Throw (HTTPException 404 "Activity not found" [])
                  | Throw e => Throw e
                  end in
  signup_for_activity dec activity_name email request st = (expected, st) /\
  unregister_from_activity dec activity_name email request st = (expected, st).
Proof.
  intros Hact. simpl.
  destruct (fst (require_teacher dec request st)) as [teacher|e] eqn:Hauth.
  - split; [apply (signup_missing dec st activity_name email request teacher Hauth Hact)
           |apply (unregister_missing dec st activity_name email request teacher Hauth Hact)].
  - split; [apply (signup_auth_failed dec st activity_name email request e Hauth)
           |apply (unregister_auth_failed dec st activity_name email request e Hauth)].
Qed.

Lemma missing_activity_outcome_witness :
  activities initial_state !! "Nonexistent Club" = None /\
  signup_for_activity plain_decoder "Nonexistent Club" "isabella@mergington.edu"
    teacher_request initial_state =
    (Throw (HTTPException 404 "Activity not found" []), initial_state) /\
  unregister_from_activity plain_decoder "Nonexistent Club" "isabella@mergington.edu"
    (mkRequest None) initial_state =
    (Throw (HTTPException 401 "Not authenticated" []), initial_state).
Proof.
  assert (H : activities initial_state !! "Nonexistent Club" = None)
    by (vm_compute; reflexivity).
  split; [exact H|]. split.
  - exact (proj1 (missing_activity_outcome plain_decoder initial_state "Nonexistent Club"
                    "isabella@mergington.edu" teacher_request H)).
  - exact (proj2 (missing_activity_outcome plain_decoder initial_state "Nonexistent Club"
                    "isabella@mergington.edu" (mkRequest None) H)).
Defined.

(** C5: signup never checks capacity: with valid Path B credentials, a new
    email is appended with 200 even when the activity is already full. *)
Theorem signup_ignores_capacity (dec : string -> option string) (st : State)
    (activity_name email teacher : string) (request : Request) (activity : Activity) :
  fst (require_teacher dec request st) = Ret teacher ->
  activities st !! activity_name = Some activity ->
  email ∉ participants activity ->
  max_participants activity <= Z.of_nat (length (participants activity)) ->
  let '(r, st') := signup_for_activity dec activity_name email request st in
  http_status r = 200 /\
  exists activity', activities st' !! activity_name = Some activity' /\
    participants activity' = participants activity ++ [email].
Proof.
  intros Hauth Hact Hnot _.
  rewrite (signup_new dec st activity_name email request teacher Hauth activity Hact Hnot).
  split; [done|]. eexists. split; [apply update_participants_lookup|done].
Qed.

Lemma signup_ignores_capacity_witness :
  (fst (require_teacher plain_decoder teacher_request full_chess_state) = Ret "msmith" /\
   activities full_chess_state !! "Chess Club" = Some full_chess_club /\
   ("isabella@mergington.edu" ∉ participants full_chess_club) /\
   max_participants full_chess_club <= Z.of_nat (length (participants full_chess_club))) /\
  let '(r, st') := signup_for_activity plain_decoder "Chess Club"
                     "isabella@mergington.edu" teacher_request full_chess_state in
  http_status r = 200 /\
  exists activity', activities st' !! "Chess Club" = Some activity' /\
    participants activity' = participants full_chess_club ++ ["isabella@mergington.edu"].
Proof.
  assert (H1 : fst (require_teacher plain_decoder teacher_request full_chess_state)
               = Ret "msmith") by (vm_compute; reflexivity).
  assert (H2 : activities full_chess_state !! "Chess Club" = Some full_chess_club)
    by (vm_compute; reflexivity).
  assert (H3 : "isabella@mergington.edu" ∉ participants full_chess_club)
    by (apply (bool_decide_unpack _); vm_compute; exact I).
  assert (H4 : max_participants full_chess_club <=
               Z.of_nat (length (participants full_chess_club)))
    by (vm_compute; discriminate).
  split; [split; [exact H1 | split; [exact H2 | split; [exact H3 | exact H4]]]|].
  exact (signup_ignores_capacity plain_decoder full_chess_state "Chess Club"
           "isabella@mergington.edu" "msmith" teacher_request full_chess_club H1 H2 H3 H4).
Defined.

(** ** Claims about authentication and sessions *)

Lemma partition_colon (u p : string) :
  ":"%char ∉ String.list_ascii_of_string u ->
  Py.partition ":"%char (u +:+ ":" +:+ p) = (u, ":", p).
Proof.
  induction u as [|c u IH]; intros Hu; simpl; [done|].
  destruct (Ascii.eqb c ":"%char) eqn:E.
  - apply Ascii.eqb_eq in E. subst c. exfalso. apply Hu. simpl. apply elem_of_cons. by left.
  - rewrite IH; [done|]. intros H. apply Hu. simpl. apply elem_of_cons. by right.
Qed.

(** The two credential loops accept the same pairs with the same username. *)
Lemma auth_loops_agree (u p t : string) (teachers : list Teacher) (st : State) :
  fst (authenticate_loop (mkCreds u p) teachers st) = Ret t <->
  fst (require_loop u p teachers st) = Ret t.
Proof.
  induction teachers as [|teacher ts IH]; simpl; [done|].
  destruct (String.eqb u (username teacher)); [|done].
  unfold bind, compare_digest, ret, raise.
  destruct (Py.is_ascii p && Py.is_ascii (password teacher))%bool; [|done].
  destruct (String.eqb p (password teacher)); [|done].
  unfold add_logged_in, bind, get, put, ret. done.
Qed.

(** C6: for every credential store and every pair whose username contains
    no colon (a well-formed Basic header cannot carry one), Path A and Path B
    on a Basic header whose payload decodes to [username:password] agree on
    accept versus reject and accept with the same username. *)
Theorem path_a_path_b_agree (dec : string -> option string) (st : State)
    (u p param t : string) :
  ":"%char ∉ String.list_ascii_of_string u ->
  dec param = Some (u +:+ ":" +:+ p) ->
  fst (authenticate_teacher (mkCreds u p) st) = Ret t <->
  fst (require_teacher dec (mkRequest (Some ("Basic " +:+ param))) st) = Ret t.
Proof.
  intros Hu Hdec. unfold require_teacher, authenticate_teacher. simpl.
  change ("" +:+ param) with param. rewrite Hdec, (partition_colon u p Hu).
  unfold load_teachers, bind, get, ret, raise. simpl.
  destruct (teachers_json st) as [teachers|]; simpl; [|done].
  apply auth_loops_agree.
Qed.

Lemma path_a_path_b_agree_witness :
  ((":"%char ∉ String.list_ascii_of_string "msmith") /\
   plain_decoder "msmith:s3cret" = Some ("msmith" +:+ ":" +:+ "s3cret")) /\
  (fst (authenticate_teacher (mkCreds "msmith" "s3cret") initial_state) = Ret "msmith" <->
   fst (require_teacher plain_decoder (mkRequest (Some ("Basic " +:+ "msmith:s3cret")))
          initial_state) = Ret "msmith").
Proof.
  assert (H1 : ":"%char ∉ String.list_ascii_of_string "msmith")
    by (apply (bool_decide_unpack _); vm_compute; exact I).
  assert (H2 : plain_decoder "msmith:s3cret" = Some ("msmith" +:+ ":" +:+ "s3cret"))
    by reflexivity.
  split; [split; [exact H1 | exact H2]|].
  exact (path_a_path_b_agree plain_decoder initial_state "msmith" "s3cret"
           "msmith:s3cret" "msmith" H1 H2).
Defined.

(** C7: logout returns 200 and removes the claimed username from the
    session set exactly when that username is in it, otherwise 400 with no
    change; the submitted password plays no part. *)
Theorem logout_iff_logged_in (credentials : HTTPBasicCredentials) (st : State) :
  let u := cred_username credentials in
  let '(r, st') := logout credentials st in
  (http_status r = 200 <-> u ∈ logged_in_teachers st) /\
  (u ∈ logged_in_teachers st ->
     logged_in_teachers st' = logged_in_teachers st ∖ {[u]} /\
     activities st' = activities st /\ teachers_json st' = teachers_json st) /\
  (u ∉ logged_in_teachers st -> http_status r = 400 /\ st' = st) /\
  (forall password' : string, logout (mkCreds u password') st = (r, st')).
Proof.
  destruct credentials as [u p]. simpl.
  unfold logout, remove_logged_in, bind, get, put, ret. simpl.
  case_bool_decide as Hin; simpl.
  - split; [done|]. split; [done|]. split; [done|]. intros p'. reflexivity.
  - split; [split; [discriminate|done]|]. split; [done|]. split; [done|].
    intros p'. reflexivity.
Qed.

(** C8: Path B fails with 401 when the Authorization header is absent, when
    its scheme is not "basic" once lowered, and when its payload does not
    decode; it never changes the state, and a registry handler whose Path B
    check fails changes nothing either. *)
Theorem require_teacher_rejects (dec : string -> option string) (request : Request)
    (st : State) :
  (authorization request = None ->
     exists detail, fst (require_teacher dec request st) =
                    Throw (HTTPException 401 detail [])) /\
  (forall auth scheme sep param,
     authorization request = Some auth ->
     Py.partition " "%char auth = (scheme, sep, param) ->
     Py.lower scheme <> "basic" ->
     exists detail, fst (require_teacher dec request st) =
                    Throw (HTTPException 401 detail [])) /\
  (forall auth scheme sep param,
     authorization request = Some auth ->
     Py.partition " "%char auth = (scheme, sep, param) ->
     dec param = None ->
     exists detail, fst (require_teacher dec request st) =
                    Throw (HTTPException 401 detail [])) /\
  snd (require_teacher dec request st) = st /\
  (forall e activity_name email,
     fst (require_teacher dec request st) = Throw e ->
     signup_for_activity dec activity_name email request st = (Throw e, st) /\
     unregister_from_activity dec activity_name email request st = (Throw e, st)).
Proof.
  split; [|split; [|split; [|split]]].
  - intros Hn. unfold require_teacher. rewrite Hn. by eexists.
  - intros auth scheme sep param Ha Hp Hs. unfold require_teacher. rewrite Ha.
    destruct (String.eqb auth ""); [by eexists|]. rewrite Hp.
    apply String.eqb_neq in Hs. rewrite Hs. by eexists.
  - intros auth scheme sep param Ha Hp Hd. unfold require_teacher. rewrite Ha.
    destruct (String.eqb auth ""); [by eexists|]. rewrite Hp.
    destruct (negb (String.eqb (Py.lower scheme) "basic")); [by eexists|].
    rewrite Hd. by eexists.
  - destruct (require_teacher_state dec request st) as [r Hr]. by rewrite Hr.
  - intros e activity_name email He. split.
    + apply (signup_auth_failed dec st activity_name email request e He).
    + apply (unregister_auth_failed dec st activity_name email request e He).
Qed.

(** ** Invariant and frame of the registry handlers *)

Lemma signup_state_cases (dec : string -> option string) (st : State)
    (activity_name email : string) (request : Request) :
  snd (signup_for_activity dec activity_name email request st) = st \/
  exists activity, activities st !! activity_name = Some activity /\
    (email ∉ participants activity) /\
    snd (signup_for_activity dec activity_name email request st) =
      update_participants activity_name activity (participants activity ++ [email]) st.
Proof.
  destruct (fst (require_teacher dec request st)) as [teacher|e] eqn:Hauth.
  - destruct (activities st !! activity_name) as [activity|] eqn:Hact.
    + destruct (decide (email ∈ participants activity)) as [Hin|Hn].
      * left. by rewrite (signup_duplicate dec st activity_name email request teacher
                            Hauth activity Hact Hin).
      * right. exists activity. split; [done|]. split; [done|].
        by rewrite (signup_new dec st activity_name email request teacher Hauth
                      activity Hact Hn).
    + left. by rewrite (signup_missing dec st activity_name email request teacher
                          Hauth Hact).
  - left. by rewrite (signup_auth_failed dec st activity_name email request e Hauth).
Qed.

Lemma unregister_state_cases (dec : string -> option string) (st : State)
    (activity_name email : string) (request : Request) :
  snd (unregister_from_activity dec activity_name email request st) = st \/
  exists activity pre post, activities st !! activity_name = Some activity /\
    participants activity = pre ++ email :: post /\
    snd (unregister_from_activity dec activity_name email request st) =
      update_participants activity_name activity (pre ++ post) st.
Proof.
  destruct (fst (require_teacher dec request st)) as [teacher|e] eqn:Hauth.
  - destruct (activities st !! activity_name) as [activity|] eqn:Hact.
    + destruct (decide (email ∈ participants activity)) as [Hin|Hn].
      * right. destruct (unregister_present dec st activity_name email request teacher
                           Hauth activity Hact Hin) as (pre & post & Hps & _ & Heq).
        exists activity, pre, post. split; [done|]. split; [done|]. by rewrite Heq.
      * left. by rewrite (unregister_absent dec st activity_name email request teacher
                            Hauth activity Hact Hn).
    + left. by rewrite (unregister_missing dec st activity_name email request teacher
                          Hauth Hact).
  - left. by rewrite (unregister_auth_failed dec st activity_name email request e Hauth).
Qed.

Lemma update_participants_nodup (activity_name : string) (activity : Activity)
    (ps : list string) (st : State) :
  participants_nodup st -> NoDup ps ->
  participants_nodup (update_participants activity_name activity ps st).
Proof.
  intros Hst Hps. unfold participants_nodup, update_participants. simpl.
  by apply map_Forall_insert_2.
Qed.

Lemma update_participants_frame (activity_name : string) (activity : Activity)
    (ps : list string) (st : State) :
  activities st !! activity_name = Some activity ->
  frame_of activity_name st (update_participants activity_name activity ps st).
Proof.
  intros Hact. unfold frame_of, update_participants. simpl.
  split; [done|]. split; [done|]. split.
  - intros k Hk. by apply lookup_insert_ne.
  - by rewrite lookup_insert_eq, Hact.
Qed.

Lemma frame_of_refl (activity_name : string) (st : State) : frame_of activity_name st st.
Proof. unfold frame_of. done. Qed.

Lemma authenticate_loop_records (credentials : HTTPBasicCredentials)
    (teachers : list Teacher) (st : State) (t : string) :
  fst (authenticate_loop credentials teachers st) = Ret t ->
  t ∈ logged_in_teachers (snd (authenticate_loop credentials teachers st)).
Proof.
  induction teachers as [|teacher ts IH]; simpl; [discriminate|].
  destruct (String.eqb (cred_username credentials) (username teacher)); [|done].
  unfold bind, compare_digest, ret, raise.
  destruct (Py.is_ascii (cred_password credentials) && Py.is_ascii (password teacher))%bool;
    [|discriminate].
  destruct (String.eqb (cred_password credentials) (password teacher)); [|done].
  unfold add_logged_in, bind, get, put, ret. simpl. intros Ht. injection Ht as <-.
  set_solver.
Qed.

(** C9: if no activity lists a participant twice, signup and unregister
    keep it so, whatever their outcome. *)
Theorem registry_nodup_preserved (dec : string -> option string) (st : State)
    (activity_name email : string) (request : Request) :
  participants_nodup st ->
  participants_nodup (snd (signup_for_activity dec activity_name email request st)) /\
  participants_nodup (snd (unregister_from_activity dec activity_name email request st)).
Proof.
  intros Hst. split.
  - destruct (signup_state_cases dec st activity_name email request)
      as [-> | (activity & Hact & Hn & ->)]; [done|].
    apply update_participants_nodup; [done|].
    apply NoDup_app. split; [exact (Hst _ _ Hact)|]. split.
    + intros x Hx Hx'. apply list_elem_of_singleton in Hx'. subst. done.
    + apply NoDup_singleton.
  - destruct (unregister_state_cases dec st activity_name email request)
      as [-> | (activity & pre & post & Hact & Hps & ->)]; [done|].
    apply update_participants_nodup; [done|].
    pose proof (Hst _ _ Hact) as Hnd. simpl in Hnd. rewrite Hps in Hnd.
    apply NoDup_app in Hnd as (Hpre & Hdis & Hpost).
    apply NoDup_cons in Hpost as [_ Hpost].
    apply NoDup_app. split; [done|]. split; [|done].
    intros x Hx Hx'. apply (Hdis x Hx). apply elem_of_cons. by right.
Qed.

Lemma registry_nodup_preserved_witness :
  participants_nodup initial_state /\
  participants_nodup (snd (signup_for_activity plain_decoder "Chess Club"
                             "isabella@mergington.edu" teacher_request initial_state)) /\
  participants_nodup (snd (unregister_from_activity plain_decoder "Chess Club"
                             "isabella@mergington.edu" teacher_request initial_state)).
Proof.
  assert (H : participants_nodup initial_state)
    by (apply (bool_decide_unpack _); vm_compute; exact I).
  split; [exact H|].
  exact (registry_nodup_preserved plain_decoder initial_state "Chess Club"
           "isabella@mergington.edu" teacher_request H).
Defined.

(** C10: a signup or unregister request for [activity_name] changes at most
    the participants of that activity: its other fields, every other
    activity, the session set and the credential store stay as they were.
    Path B never records a session, while a successful Path A does. *)
Theorem registry_ops_frame (dec : string -> option string) (st : State)
    (activity_name email : string) (request : Request) :
  frame_of activity_name st (snd (signup_for_activity dec activity_name email request st)) /\
  frame_of activity_name st
    (snd (unregister_from_activity dec activity_name email request st)) /\
  snd (require_teacher dec request st) = st /\
  (forall credentials t,
     fst (authenticate_teacher credentials st) = Ret t ->
     t ∈ logged_in_teachers (snd (authenticate_teacher credentials st))).
Proof.
  split; [|split; [|split]].
  - destruct (signup_state_cases dec st activity_name email request)
      as [-> | (activity & Hact & _ & ->)].
    + apply frame_of_refl.
    + by apply update_participants_frame.
  - destruct (unregister_state_cases dec st activity_name email request)
      as [-> | (activity & pre & post & Hact & _ & ->)].
    + apply frame_of_refl.
    + by apply update_participants_frame.
  - destruct (require_teacher_state dec request st) as [r Hr]. by rewrite Hr.
  - intros credentials t. unfold authenticate_teacher, load_teachers, bind, get, ret, raise.
    simpl. destruct (teachers_json st) as [teachers|]; [|discriminate].
    apply authenticate_loop_records.
Qed.

(** ** Further properties of the application *)

Lemma list_elem_here {A} (x : A) (l : list A) : x ∈ x :: l.
Proof. apply elem_of_cons. by left. Qed.

Lemma list_elem_further {A} (x y : A) (l : list A) : x ∈ l -> x ∈ y :: l.
Proof. intros H. apply elem_of_cons. by right. Qed.

Lemma partition_sep (c : ascii) (u p : string) :
  c ∉ String.list_ascii_of_string u ->
  Py.partition c (u +:+ String.String c String.EmptyString +:+ p) =
    (u, String.String c String.EmptyString, p).
Proof.
  induction u as [|c' u IH]; intros Hu; simpl.
  - by rewrite Ascii.eqb_refl.
  - destruct (Ascii.eqb c' c) eqn:E.
    + apply Ascii.eqb_eq in E. subst c'. exfalso. apply Hu. simpl.
      apply elem_of_cons. by left.
    + rewrite IH; [done|]. intros H. apply Hu. simpl. apply elem_of_cons. by right.
Qed.

Lemma partition_absent (c : ascii) (s : string) :
  c ∉ String.list_ascii_of_string s ->
  Py.partition c s = (s, String.EmptyString, String.EmptyString).
Proof.
  induction s as [|c' s IH]; intros Hs; simpl; [done|].
  destruct (Ascii.eqb c' c) eqn:E.
  - apply Ascii.eqb_eq in E. subst c'. exfalso. apply Hs. simpl.
    apply elem_of_cons. by left.
  - rewrite IH; [done|]. intros H. apply Hs. simpl. apply elem_of_cons. by right.
Qed.

(** Both credential loops, when every password they compare is ASCII: they
    accept exactly when some entry has both the username and the password. *)
Lemma require_loop_existsb (u p : string) (teachers : list Teacher) (st : State) :
  Py.is_ascii p = true ->
  (forall teacher, teacher ∈ teachers -> username teacher = u ->
     Py.is_ascii (password teacher) = true) ->
  require_loop u p teachers st =
    (if existsb (fun teacher => String.eqb (username teacher) u &&
                                String.eqb (password teacher) p)%bool teachers
     then Ret u else Throw (HTTPException 401 "Invalid credentials" []), st).
Proof.
  intros Hp. induction teachers as [|teacher ts IH]; intros Hts; simpl; [done|].
  assert (IH' : require_loop u p ts st =
    (if existsb (fun teacher => String.eqb (username teacher) u &&
                                String.eqb (password teacher) p)%bool ts
     then Ret u else Throw (HTTPException 401 "Invalid credentials" []), st)).
  { apply IH. intros t Ht. apply Hts. apply elem_of_cons. by right. }
  rewrite (String.eqb_sym (username teacher) u), (String.eqb_sym (password teacher) p).
  destruct (String.eqb u (username teacher)) eqn:Eu; simpl; [|done].
  apply String.eqb_eq in Eu.
  unfold bind, compare_digest, ret, raise.
  rewrite Hp, (Hts teacher (list_elem_here _ _) (eq_sym Eu)). simpl.
  by destruct (String.eqb p (password teacher)).
Qed.

Lemma authenticate_loop_existsb (u p : string) (teachers : list Teacher) (st : State) :
  Py.is_ascii p = true ->
  (forall teacher, teacher ∈ teachers -> username teacher = u ->
     Py.is_ascii (password teacher) = true) ->
  authenticate_loop (mkCreds u p) teachers st =
    if existsb (fun teacher => String.eqb (username teacher) u &&
                               String.eqb (password teacher) p)%bool teachers
    then (Ret u, mkState (activities st) ({[u]} ∪ logged_in_teachers st) (teachers_json st))
    else (Throw (HTTPException 401 "Invalid credentials" [("WWW-Authenticate", "Basic")]), st).
Proof.
  intros Hp. induction teachers as [|teacher ts IH]; intros Hts; simpl; [done|].
  assert (IH' := IH (fun t Ht => Hts t (list_elem_further _ _ _ Ht))).
  rewrite (String.eqb_sym (username teacher) u), (String.eqb_sym (password teacher) p).
  destruct (String.eqb u (username teacher)) eqn:Eu; simpl; [|done].
  apply String.eqb_eq in Eu.
  unfold bind, compare_digest, ret, raise.
  rewrite Hp, (Hts teacher (list_elem_here _ _) (eq_sym Eu)). simpl.
  destruct (String.eqb p (password teacher)); [|done].
  unfold add_logged_in, bind, get, put, ret. done.
Qed.

Lemma existsb_match_iff (u p : string) (teachers : list Teacher) :
  existsb (fun teacher => String.eqb (username teacher) u &&
                          String.eqb (password teacher) p)%bool teachers = true <->
  exists teacher, teacher ∈ teachers /\ username teacher = u /\ password teacher = p.
Proof.
  rewrite existsb_exists. split.
  - intros [t [Ht Hm]]. apply andb_true_iff in Hm as [H1 H2].
    apply String.eqb_eq in H1, H2. exists t. by rewrite list_elem_of_In.
  - intros [t (Ht & H1 & H2)]. exists t. rewrite <- list_elem_of_In.
    split; [done|]. apply andb_true_iff. by rewrite H1, H2, !String.eqb_refl.
Qed.

(** Path B on a well-formed Basic header runs the credential loop on the
    decoded pair. *)
Lemma require_teacher_basic (dec : string -> option string) (st : State)
    (teachers : list Teacher) (u p param : string) :
  teachers_json st = Some teachers ->
  dec param = Some (u +:+ ":" +:+ p) ->
  ":"%char ∉ String.list_ascii_of_string u ->
  require_teacher dec (mkRequest (Some ("Basic " +:+ param))) st =
    require_loop u p teachers st.
Proof.
  intros Hj Hdec Hu. unfold require_teacher. simpl.
  change ("" +:+ param) with param. rewrite Hdec, (partition_colon u p Hu).
  unfold load_teachers, bind, get, ret. simpl. by rewrite Hj.
Qed.

(** Path A either accepts the claimed username, found in the store, and
    records it in the session set, or raises and leaves the state alone. *)
Lemma authenticate_loop_cases (credentials : HTTPBasicCredentials)
    (teachers : list Teacher) (st : State) :
  (authenticate_loop credentials teachers st =
     (Ret (cred_username credentials),
      mkState (activities st) ({[cred_username credentials]} ∪ logged_in_teachers st)
        (teachers_json st)) /\
   exists teacher, teacher ∈ teachers /\ username teacher = cred_username credentials) \/
  exists e, authenticate_loop credentials teachers st = (Throw e, st).
Proof.
  induction teachers as [|teacher ts IH]; simpl; [by right; eexists|].
  destruct (String.eqb (cred_username credentials) (username teacher)) eqn:Eu.
  - apply String.eqb_eq in Eu. unfold bind, compare_digest, ret, raise.
    destruct (Py.is_ascii (cred_password credentials) && Py.is_ascii (password teacher))%bool;
      [|by right; eexists].
    destruct (String.eqb (cred_password credentials) (password teacher)).
    + left. split; [done|]. exists teacher. split; [apply list_elem_here|done].
    + destruct IH as [[Heq (t & Ht & Htu)] | He]; [left | by right].
      split; [exact Heq|]. exists t. split; [by apply list_elem_further|done].
  - destruct IH as [[Heq (t & Ht & Htu)] | He]; [left | by right].
    split; [exact Heq|]. exists t. split; [by apply list_elem_further|done].
Qed.

Lemma login_cases (credentials : HTTPBasicCredentials) (st : State) :
  (exists teachers teacher,
     teachers_json st = Some teachers /\ teacher ∈ teachers /\
     username teacher = cred_username credentials /\
     login credentials st =
       (Ret (mkResponse 200 ("Logged in as " +:+ cred_username credentials)),
        mkState (activities st) ({[cred_username credentials]} ∪ logged_in_teachers st)
          (teachers_json st))) \/
  exists e, login credentials st = (Throw e, st).
Proof.
  unfold login, authenticate_teacher, load_teachers, bind, get, ret, raise. simpl.
  destruct (teachers_json st) as [teachers|] eqn:Hj; [|by right; eexists].
  destruct (authenticate_loop_cases credentials teachers st)
    as [[Heq (t & Ht & Htu)] | [e He]].
  - left. exists teachers, t. rewrite Heq, Hj. done.
  - right. exists e. by rewrite He.
Qed.

Lemma credential_loops_non_ascii (u p : string) (teachers : list Teacher) (st : State) :
  Py.is_ascii p = false ->
  (exists teacher, teacher ∈ teachers /\ username teacher = u) ->
  require_loop u p teachers st = (Throw TypeError, st) /\
  authenticate_loop (mkCreds u p) teachers st = (Throw TypeError, st).
Proof.
  intros Hp. induction teachers as [|teacher ts IH]; intros (t & Ht & Htu).
  - by apply not_elem_of_nil in Ht.
  - simpl. destruct (String.eqb u (username teacher)) eqn:Eu.
    + unfold bind, compare_digest, raise. by rewrite Hp.
    + apply IH. exists t. split; [|done].
      apply elem_of_cons in Ht as [->|Ht]; [|done].
      apply String.eqb_neq in Eu. congruence.
Qed.

(** X1: Path B on a Basic header whose payload decodes to [u:p] ([u] without
    a colon), with the store read and every compared password ASCII, accepts
    [u] exactly when some entry of [teachers.json] has username [u] and
    password [p], and otherwise fails with 401; the state never changes. *)
Theorem require_teacher_accepts_iff (dec : string -> option string) (st : State)
    (teachers : list Teacher) (u p param : string) :
  teachers_json st = Some teachers ->
  dec param = Some (u +:+ ":" +:+ p) ->
  ":"%char ∉ String.list_ascii_of_string u ->
  Py.is_ascii p = true ->
  (forall teacher, teacher ∈ teachers -> username teacher = u ->
     Py.is_ascii (password teacher) = true) ->
  ((exists teacher, teacher ∈ teachers /\ username teacher = u /\ password teacher = p) ->
     require_teacher dec (mkRequest (Some ("Basic " +:+ param))) st = (Ret u, st)) /\
  (~ (exists teacher, teacher ∈ teachers /\ username teacher = u /\ password teacher = p) ->
     require_teacher dec (mkRequest (Some ("Basic " +:+ param))) st =
       (Throw (HTTPException 401 "Invalid credentials" []), st)).
Proof.
  intros Hj Hdec Hu Hp Hts.
  rewrite (require_teacher_basic dec st teachers u p param Hj Hdec Hu),
    (require_loop_existsb u p teachers st Hp Hts).
  split; intros H.
  - apply existsb_match_iff in H. by rewrite H.
  - destruct (existsb _ teachers) eqn:E; [|done].
    exfalso. apply H, existsb_match_iff, E.
Qed.

Lemma sample_teachers_ascii (u : string) :
  forall teacher, teacher ∈ sample_teachers -> username teacher = u ->
    Py.is_ascii (password teacher) = true.
Proof. intros t Ht _. apply list_elem_of_singleton in Ht. by subst. Qed.

Lemma require_teacher_accepts_iff_witness :
  (teachers_json initial_state = Some sample_teachers /\
   plain_decoder "msmith:s3cret" = Some ("msmith" +:+ ":" +:+ "s3cret") /\
   (":"%char ∉ String.list_ascii_of_string "msmith") /\
   Py.is_ascii "s3cret" = true) /\
  require_teacher plain_decoder (mkRequest (Some ("Basic " +:+ "msmith:s3cret")))
    initial_state = (Ret "msmith", initial_state).
Proof.
  assert (H1 : teachers_json initial_state = Some sample_teachers) by reflexivity.
  assert (H2 : plain_decoder "msmith:s3cret" = Some ("msmith" +:+ ":" +:+ "s3cret"))
    by reflexivity.
  assert (H3 : ":"%char ∉ String.list_ascii_of_string "msmith")
    by (apply (bool_decide_unpack _); vm_compute; exact I).
  assert (H4 : Py.is_ascii "s3cret" = true) by reflexivity.
  split; [split; [exact H1 | split; [exact H2 | split; [exact H3 | exact H4]]]|].
  apply (proj1 (require_teacher_accepts_iff plain_decoder initial_state sample_teachers
                  "msmith" "s3cret" "msmith:s3cret" H1 H2 H3 H4
                  (sample_teachers_ascii "msmith"))).
  exists (mkTeacher "msmith" "s3cret"). split; [apply list_elem_here|done].
Defined.

(** X2: login with the store read and every compared password ASCII returns
    200 and adds the username to the session set when some entry matches
    both username and password; otherwise it fails with 401 carrying a
    [WWW-Authenticate: Basic] header and changes nothing. *)
Theorem login_outcome (st : State) (teachers : list Teacher) (u p : string) :
  teachers_json st = Some teachers ->
  Py.is_ascii p = true ->
  (forall teacher, teacher ∈ teachers -> username teacher = u ->
     Py.is_ascii (password teacher) = true) ->
  ((exists teacher, teacher ∈ teachers /\ username teacher = u /\ password teacher = p) ->
     login (mkCreds u p) st =
       (Ret (mkResponse 200 ("Logged in as " +:+ u)),
        mkState (activities st) ({[u]} ∪ logged_in_teachers st) (teachers_json st))) /\
  (~ (exists teacher, teacher ∈ teachers /\ username teacher = u /\ password teacher = p) ->
     login (mkCreds u p) st =
       (Throw (HTTPException 401 "Invalid credentials" [("WWW-Authenticate", "Basic")]), st)).
Proof.
  intros Hj Hp Hts.
  unfold login, authenticate_teacher, load_teachers, bind, get, ret, raise. simpl.
  rewrite Hj, (authenticate_loop_existsb u p teachers st Hp Hts).
  split; intros H.
  - apply existsb_match_iff in H. rewrite H. simpl. by rewrite ?Hj.
  - destruct (existsb _ teachers) eqn:E; [|done].
    exfalso. apply H, existsb_match_iff, E.
Qed.

Lemma login_outcome_witness :
  (teachers_json initial_state = Some sample_teachers /\ Py.is_ascii "wrong" = true) /\
  login (mkCreds "msmith" "wrong") initial_state =
    (Throw (HTTPException 401 "Invalid credentials" [("WWW-Authenticate", "Basic")]),
     initial_state).
Proof.
  assert (H1 : teachers_json initial_state = Some sample_teachers) by reflexivity.
  assert (H2 : Py.is_ascii "wrong" = true) by reflexivity.
  split; [split; [exact H1 | exact H2]|].
  apply (proj2 (login_outcome initial_state sample_teachers "msmith" "wrong" H1 H2
                  (sample_teachers_ascii "msmith"))).
  intros (t & Ht & _ & Hpw). apply list_elem_of_singleton in Ht. subst t.
  discriminate.
Defined.

(** X3: after a successful login, a logout with the same username (any
    password) returns 200 and the username is no longer in the session set;
    the registry is untouched by both. *)
Theorem login_then_logout (credentials credentials' : HTTPBasicCredentials)
    (st : State) (r : Response) :
  fst (login credentials st) = Ret r ->
  cred_username credentials' = cred_username credentials ->
  let '(r2, st2) := logout credentials' (snd (login credentials st)) in
  http_status r2 = 200 /\
  (cred_username credentials ∉ logged_in_teachers st2) /\
  activities st2 = activities st.
Proof.
  intros Hl Hu.
  destruct (login_cases credentials st) as [(ts & t & Hj & Ht & Htu & Heq) | [e He]].
  - rewrite Heq. simpl. unfold logout, remove_logged_in, bind, get, put, ret. simpl.
    rewrite Hu. rewrite bool_decide_true by set_solver. simpl.
    split; [done|]. split; [set_solver|done].
  - rewrite He in Hl. discriminate.
Qed.

Lemma login_then_logout_witness :
  fst (login (mkCreds "msmith" "s3cret") initial_state) =
    Ret (mkResponse 200 "Logged in as msmith") /\
  let '(r2, st2) := logout (mkCreds "msmith" "anything")
                      (snd (login (mkCreds "msmith" "s3cret") initial_state)) in
  http_status r2 = 200 /\
  ("msmith" ∉ logged_in_teachers st2) /\
  activities st2 = activities initial_state.
Proof.
  assert (H : fst (login (mkCreds "msmith" "s3cret") initial_state) =
              Ret (mkResponse 200 "Logged in as msmith")) by (vm_compute; reflexivity).
  split; [exact H|].
  exact (login_then_logout (mkCreds "msmith" "s3cret") (mkCreds "msmith" "anything")
           initial_state _ H eq_refl).
Defined.

(** X4: a non-ASCII password in the decoded Basic payload, for a username
    present in the store, makes [secrets.compare_digest] raise inside
    [require_teacher]: signup and unregister then end in a server error
    (500) instead of 401, with no state change. *)
Theorem non_ascii_password_server_error (dec : string -> option string) (st : State)
    (teachers : list Teacher) (u p param : string) :
  teachers_json st = Some teachers ->
  Py.is_ascii p = false ->
  (exists teacher, teacher ∈ teachers /\ username teacher = u) ->
  dec param = Some (u +:+ ":" +:+ p) ->
  ":"%char ∉ String.list_ascii_of_string u ->
  forall activity_name email,
    signup_for_activity dec activity_name email
      (mkRequest (Some ("Basic " +:+ param))) st = (Throw TypeError, st) /\
    unregister_from_activity dec activity_name email
      (mkRequest (Some ("Basic " +:+ param))) st = (Throw TypeError, st).
Proof.
  intros Hj Hp Hu Hdec Hcolon activity_name email.
  destruct (credential_loops_non_ascii u p teachers st Hp Hu) as [HB _].
  assert (Hr : fst (require_teacher dec (mkRequest (Some ("Basic " +:+ param))) st) =
               Throw TypeError).
  { by rewrite (require_teacher_basic dec st teachers u p param Hj Hdec Hcolon), HB. }
  split.
  - apply (signup_auth_failed dec st activity_name email _ TypeError Hr).
  - apply (unregister_auth_failed dec st activity_name email _ TypeError Hr).
Qed.

Lemma non_ascii_password_server_error_witness :
  ((teachers_json initial_state = Some sample_teachers /\
    Py.is_ascii accented_password = false) /\
   plain_decoder ("msmith:" +:+ accented_password) =
     Some ("msmith" +:+ ":" +:+ accented_password)) /\
  http_status (fst (signup_for_activity plain_decoder "Chess Club" "new@mergington.edu"
     (mkRequest (Some ("Basic " +:+ ("msmith:" +:+ accented_password)))) initial_state)) = 500 /\
  http_status (fst (unregister_from_activity plain_decoder "Chess Club" "michael@mergington.edu"
     (mkRequest (Some ("Basic " +:+ ("msmith:" +:+ accented_password)))) initial_state)) = 500.
Proof.
  assert (H1 : teachers_json initial_state = Some sample_teachers) by reflexivity.
  assert (H2 : Py.is_ascii accented_password = false) by (vm_compute; reflexivity).
  assert (H3 : plain_decoder ("msmith:" +:+ accented_password) =
               Some ("msmith" +:+ ":" +:+ accented_password)) by reflexivity.
  assert (H4 : ":"%char ∉ String.list_ascii_of_string "msmith")
    by (apply (bool_decide_unpack _); vm_compute; exact I).
  split; [split; [split; [exact H1 | exact H2] | exact H3]|].
  destruct (non_ascii_password_server_error plain_decoder initial_state
              sample_teachers "msmith" accented_password ("msmith:" +:+ accented_password)
              H1 H2 (ex_intro _ (mkTeacher "msmith" "s3cret")
                       (conj (list_elem_here _ _) eq_refl)) H3 H4
              "Chess Club" "new@mergington.edu") as [Hs _].
  destruct (non_ascii_password_server_error plain_decoder initial_state
              sample_teachers "msmith" accented_password ("msmith:" +:+ accented_password)
              H1 H2 (ex_intro _ (mkTeacher "msmith" "s3cret")
                       (conj (list_elem_here _ _) eq_refl)) H3 H4
              "Chess Club" "michael@mergington.edu") as [_ Hu].
  rewrite Hs, Hu. split; reflexivity.
Defined.

(** X5: when [teachers.json] cannot be loaded, login fails with a server
    error (500) for every credential, and so do signup and unregister for
    every request whose header parses as Basic with a decodable payload; the
    state does not change. *)
Theorem missing_teachers_file (dec : string -> option string) (st : State) :
  teachers_json st = None ->
  (forall credentials, login credentials st = (Throw LoadError, st)) /\
  (forall param decoded activity_name email,
     dec param = Some decoded ->
     signup_for_activity dec activity_name email
       (mkRequest (Some ("Basic " +:+ param))) st = (Throw LoadError, st) /\
     unregister_from_activity dec activity_name email
       (mkRequest (Some ("Basic " +:+ param))) st = (Throw LoadError, st)).
Proof.
  intros Hj. split.
  - intros credentials.
    unfold login, authenticate_teacher, load_teachers, bind, get, ret, raise. simpl.
    by rewrite Hj.
  - intros param decoded activity_name email Hdec.
    assert (Hr : fst (require_teacher dec (mkRequest (Some ("Basic " +:+ param))) st) =
                 Throw LoadError).
    { unfold require_teacher. simpl. change ("" +:+ param) with param. rewrite Hdec.
      destruct (Py.partition ":"%char decoded) as [[u sep] p].
      unfold load_teachers, bind, get, raise. simpl. by rewrite Hj. }
    split.
    + apply (signup_auth_failed dec st activity_name email _ LoadError Hr).
    + apply (unregister_auth_failed dec st activity_name email _ LoadError Hr).
Qed.

Lemma missing_teachers_file_witness :
  teachers_json (start_state None) = None /\
  http_status (fst (login (mkCreds "msmith" "s3cret") (start_state None))) = 500 /\
  http_status (fst (signup_for_activity plain_decoder "Chess Club" "isabella@mergington.edu"
                      (mkRequest (Some ("Basic " +:+ "msmith:s3cret")))
                      (start_state None))) = 500.
Proof.
  assert (H : teachers_json (start_state None) = None) by reflexivity.
  split; [exact H|]. split.
  - by rewrite (proj1 (missing_teachers_file plain_decoder (start_state None) H)).
  - by rewrite (proj1 (proj2 (missing_teachers_file plain_decoder (start_state None) H)
                        "msmith:s3cret" "msmith:s3cret" "Chess Club"
                        "isabella@mergington.edu" eq_refl)).
Defined.

(** X6: Path B's scheme is case-insensitive: any space-free scheme that
    lowers to "basic" is treated exactly as "Basic". *)
Theorem require_teacher_scheme_case_insensitive (dec : string -> option string)
    (st : State) (scheme param : string) :
  " "%char ∉ String.list_ascii_of_string scheme ->
  Py.lower scheme = "basic" ->
  require_teacher dec (mkRequest (Some (scheme +:+ " " +:+ param))) st =
  require_teacher dec (mkRequest (Some ("Basic " +:+ param))) st.
Proof.
  intros Hs Hl. unfold require_teacher. simpl.
  assert (Hne : String.eqb (scheme +:+ " " +:+ param) "" = false)
    by (destruct scheme; reflexivity).
  rewrite Hne, (partition_sep " "%char scheme param Hs), Hl. reflexivity.
Qed.

Lemma require_teacher_scheme_case_insensitive_witness :
  ((" "%char ∉ String.list_ascii_of_string "bAsIc") /\ Py.lower "bAsIc" = "basic") /\
  require_teacher plain_decoder (mkRequest (Some ("bAsIc" +:+ " " +:+ "msmith:s3cret")))
    initial_state =
  require_teacher plain_decoder (mkRequest (Some ("Basic " +:+ "msmith:s3cret")))
    initial_state.
Proof.
  assert (H1 : " "%char ∉ String.list_ascii_of_string "bAsIc")
    by (apply (bool_decide_unpack _); vm_compute; exact I).
  assert (H2 : Py.lower "bAsIc" = "basic") by reflexivity.
  split; [split; [exact H1 | exact H2]|].
  exact (require_teacher_scheme_case_insensitive plain_decoder initial_state "bAsIc"
           "msmith:s3cret" H1 H2).
Defined.

(** X7: a Basic payload that decodes to text without a colon is checked as
    that whole text for username with an empty password: with the store read
    and the compared passwords ASCII, it is accepted exactly when the store
    has that username with an empty password, and fails with 401 otherwise. *)
Theorem require_teacher_colonless_payload (dec : string -> option string) (st : State)
    (teachers : list Teacher) (param decoded : string) :
  teachers_json st = Some teachers ->
  dec param = Some decoded ->
  ":"%char ∉ String.list_ascii_of_string decoded ->
  (forall teacher, teacher ∈ teachers -> username teacher = decoded ->
     Py.is_ascii (password teacher) = true) ->
  ((exists teacher, teacher ∈ teachers /\ username teacher = decoded /\ password teacher = "") ->
     require_teacher dec (mkRequest (Some ("Basic " +:+ param))) st = (Ret decoded, st)) /\
  (~ (exists teacher, teacher ∈ teachers /\ username teacher = decoded /\ password teacher = "") ->
     require_teacher dec (mkRequest (Some ("Basic " +:+ param))) st =
       (Throw (HTTPException 401 "Invalid credentials" []), st)).
Proof.
  intros Hj Hdec Hc Hts.
  assert (Heq : require_teacher dec (mkRequest (Some ("Basic " +:+ param))) st =
                require_loop decoded "" teachers st).
  { unfold require_teacher. simpl. change ("" +:+ param) with param.
    rewrite Hdec, (partition_absent ":"%char decoded Hc).
    unfold load_teachers, bind, get, ret. simpl. by rewrite Hj. }
  rewrite Heq, (require_loop_existsb decoded "" teachers st eq_refl Hts).
  split; intros H.
  - apply existsb_match_iff in H. by rewrite H.
  - destruct (existsb _ teachers) eqn:E; [|done].
    exfalso. apply H, existsb_match_iff, E.
Qed.

Lemma require_teacher_colonless_payload_witness :
  (teachers_json kiosk_state = Some [mkTeacher "kiosk" ""] /\
   plain_decoder "kiosk" = Some "kiosk" /\
   (":"%char ∉ String.list_ascii_of_string "kiosk")) /\
  require_teacher plain_decoder (mkRequest (Some ("Basic " +:+ "kiosk"))) kiosk_state =
    (Ret "kiosk", kiosk_state).
Proof.
  assert (H1 : teachers_json kiosk_state = Some [mkTeacher "kiosk" ""]) by reflexivity.
  assert (H2 : plain_decoder "kiosk" = Some "kiosk") by reflexivity.
  assert (H3 : ":"%char ∉ String.list_ascii_of_string "kiosk")
    by (apply (bool_decide_unpack _); vm_compute; exact I).
  assert (H4 : forall teacher, teacher ∈ [mkTeacher "kiosk" ""] ->
                 username teacher = "kiosk" -> Py.is_ascii (password teacher) = true).
  { intros t Ht _. apply list_elem_of_singleton in Ht. by subst. }
  split; [split; [exact H1 | split; [exact H2 | exact H3]]|].
  apply (proj1 (require_teacher_colonless_payload plain_decoder kiosk_state
                  [mkTeacher "kiosk" ""] "kiosk" "kiosk" H1 H2 H3 H4)).
  exists (mkTeacher "kiosk" ""). split; [apply list_elem_here|done].
Defined.

Lemma list_remove_snoc (x : string) (l : list string) :
  x ∉ l -> Py.list_remove x (l ++ [x]) = Some l.
Proof.
  induction l as [|y l IH]; intros Hx; simpl.
  - by rewrite String.eqb_refl.
  - destruct (String.eqb y x) eqn:E.
    + apply String.eqb_eq in E. subst. exfalso. apply Hx, list_elem_here.
    + rewrite IH; [done|]. intros H. by apply Hx, list_elem_further.
Qed.

Lemma nodup_snoc (x : string) (l : list string) :
  NoDup l -> x ∉ l -> NoDup (l ++ [x]).
Proof.
  intros Hl Hx. apply NoDup_app. split; [done|]. split.
  - intros y Hy Hy'. apply list_elem_of_singleton in Hy'. by subst.
  - apply NoDup_singleton.
Qed.

Lemma nodup_remove_mid (x : string) (pre post : list string) :
  NoDup (pre ++ x :: post) -> NoDup (pre ++ post) /\ x ∉ pre ++ post.
Proof.
  intros Hnd. apply NoDup_app in Hnd as (Hpre & Hdis & Hpost).
  apply NoDup_cons in Hpost as [Hxp Hpost]. split.
  - apply NoDup_app. split; [done|]. split; [|done].
    intros y Hy Hy'. by apply (Hdis y Hy), list_elem_further.
  - rewrite elem_of_app. intros [H|H]; [|done].
    by apply (Hdis x H), list_elem_here.
Qed.

Lemma update_participants_twice (activity_name : string) (activity : Activity)
    (ps ps' : list string) (st : State) :
  update_participants activity_name
    (mkActivity (description activity) (schedule activity) (max_participants activity) ps)
    ps' (update_participants activity_name activity ps st) =
  update_participants activity_name activity ps' st.
Proof. unfold update_participants. simpl. by rewrite insert_insert_eq. Qed.

Lemma update_participants_same (activity_name : string) (activity : Activity) (st : State) :
  activities st !! activity_name = Some activity ->
  update_participants activity_name activity (participants activity) st = st.
Proof.
  intros Hact. destruct st as [acts logged tj]. unfold update_participants. simpl in *.
  destruct activity as [d s m ps]. simpl. by rewrite insert_id.
Qed.

(** X8: with valid Path B credentials, signing up a new email and then
    unregistering it with the same request returns 200 and gives back
    exactly the state before the signup. *)
Theorem signup_then_unregister_restores (dec : string -> option string) (st : State)
    (activity_name email teacher : string) (request : Request) (activity : Activity) :
  fst (require_teacher dec request st) = Ret teacher ->
  activities st !! activity_name = Some activity ->
  email ∉ participants activity ->
  let '(r2, st2) := unregister_from_activity dec activity_name email request
                      (snd (signup_for_activity dec activity_name email request st)) in
  http_status r2 = 200 /\ st2 = st.
Proof.
  intros Hauth Hact Hn.
  rewrite (signup_new dec st activity_name email request teacher Hauth activity Hact Hn).
  simpl. set (st1 := update_participants activity_name activity
                       (participants activity ++ [email]) st).
  assert (Hauth1 : fst (require_teacher dec request st1) = Ret teacher).
  { rewrite <- Hauth. by apply require_teacher_result. }
  assert (Hl1 : activities st1 !! activity_name =
                Some (mkActivity (description activity) (schedule activity)
                        (max_participants activity) (participants activity ++ [email])))
    by apply update_participants_lookup.
  run_require dec request st1. rewrite Hl1. simpl.
  replace (Py.contains email (participants activity ++ [email])) with true.
  2:{ symmetry. apply contains_spec, elem_of_app. right. apply list_elem_here. }
  simpl. rewrite (list_remove_snoc _ _ Hn). simpl.
  split; [done|]. unfold st1.
  rewrite update_participants_twice. by apply update_participants_same.
Qed.

Lemma signup_then_unregister_restores_witness :
  (fst (require_teacher plain_decoder teacher_request initial_state) = Ret "msmith" /\
   activities initial_state !! "Chess Club" = Some chess_club /\
   ("isabella@mergington.edu" ∉ participants chess_club)) /\
  let '(r2, st2) := unregister_from_activity plain_decoder "Chess Club"
                      "isabella@mergington.edu" teacher_request
                      (snd (signup_for_activity plain_decoder "Chess Club"
                              "isabella@mergington.edu" teacher_request initial_state)) in
  http_status r2 = 200 /\ st2 = initial_state.
Proof.
  assert (H1 : fst (require_teacher plain_decoder teacher_request initial_state)
               = Ret "msmith") by (vm_compute; reflexivity).
  assert (H2 : activities initial_state !! "Chess Club" = Some chess_club)
    by (vm_compute; reflexivity).
  assert (H3 : "isabella@mergington.edu" ∉ participants chess_club)
    by (apply (bool_decide_unpack _); vm_compute; exact I).
  split; [split; [exact H1 | split; [exact H2 | exact H3]]|].
  exact (signup_then_unregister_restores plain_decoder initial_state "Chess Club"
           "isabella@mergington.edu" "msmith" teacher_request chess_club H1 H2 H3).
Defined.

(** X9: with valid Path B credentials and a duplicate-free participants
    list, unregistering a participant and signing them up again returns 200
    and moves them to the end of the list, the others keeping their order. *)
Theorem unregister_then_signup_moves_to_end (dec : string -> option string) (st : State)
    (activity_name email teacher : string) (request : Request) (activity : Activity) :
  fst (require_teacher dec request st) = Ret teacher ->
  activities st !! activity_name = Some activity ->
  NoDup (participants activity) ->
  email ∈ participants activity ->
  let '(r2, st2) := signup_for_activity dec activity_name email request
                      (snd (unregister_from_activity dec activity_name email request st)) in
  http_status r2 = 200 /\
  exists pre post,
    participants activity = pre ++ email :: post /\
    activities st2 !! activity_name =
      Some (mkActivity (description activity) (schedule activity)
              (max_participants activity) (pre ++ post ++ [email])).
Proof.
  intros Hauth Hact Hnd Hin.
  destruct (unregister_present dec st activity_name email request teacher Hauth
              activity Hact Hin) as (pre & post & Hps & Hpre & ->).
  simpl. set (st1 := update_participants activity_name activity (pre ++ post) st).
  assert (Hauth1 : fst (require_teacher dec request st1) = Ret teacher).
  { rewrite <- Hauth. by apply require_teacher_result. }
  rewrite Hps in Hnd. destruct (nodup_remove_mid email pre post Hnd) as [_ Hn1].
  rewrite (signup_new dec st1 activity_name email request teacher Hauth1 _
             (update_participants_lookup activity_name activity (pre ++ post) st) Hn1).
  split; [done|]. exists pre, post. split; [done|].
  rewrite update_participants_lookup. simpl. by rewrite <- app_assoc.
Qed.

Lemma unregister_then_signup_moves_to_end_witness :
  (fst (require_teacher plain_decoder teacher_request initial_state) = Ret "msmith" /\
   activities initial_state !! "Chess Club" = Some chess_club /\
   NoDup (participants chess_club) /\
   "michael@mergington.edu" ∈ participants chess_club) /\
  let '(r2, st2) := signup_for_activity plain_decoder "Chess Club" "michael@mergington.edu"
                      teacher_request
                      (snd (unregister_from_activity plain_decoder "Chess Club"
                              "michael@mergington.edu" teacher_request initial_state)) in
  http_status r2 = 200 /\
  exists pre post,
    participants chess_club = pre ++ "michael@mergington.edu" :: post /\
    activities st2 !! "Chess Club" =
      Some (mkActivity (description chess_club) (schedule chess_club)
              (max_participants chess_club) (pre ++ post ++ ["michael@mergington.edu"])).
Proof.
  assert (H1 : fst (require_teacher plain_decoder teacher_request initial_state)
               = Ret "msmith") by (vm_compute; reflexivity).
  assert (H2 : activities initial_state !! "Chess Club" = Some chess_club)
    by (vm_compute; reflexivity).
  assert (H3 : NoDup (participants chess_club))
    by (apply (bool_decide_unpack _); vm_compute; exact I).
  assert (H4 : "michael@mergington.edu" ∈ participants chess_club)
    by (apply (bool_decide_unpack _); vm_compute; exact I).
  split; [split; [exact H1 | split; [exact H2 | split; [exact H3 | exact H4]]]|].
  exact (unregister_then_signup_moves_to_end plain_decoder initial_state "Chess Club"
           "michael@mergington.edu" "msmith" teacher_request chess_club H1 H2 H3 H4).
Defined.

Lemma require_loop_errors (u p : string) (teachers : list Teacher) (st : State) (e : Exc) :
  fst (require_loop u p teachers st) = Throw e ->
  e = HTTPException 401 "Invalid credentials" [] \/ e = TypeError.
Proof.
  induction teachers as [|t ts IH]; simpl.
  - intros H. injection H as <-. by left.
  - destruct (String.eqb u (username t)); [|done].
    unfold bind, compare_digest, ret, raise.
    destruct (Py.is_ascii p && Py.is_ascii (password t))%bool.
    + destruct (String.eqb p (password t)); [discriminate|done].
    + intros H. injection H as <-. by right.
Qed.

Lemma require_teacher_errors (dec : string -> option string) (request : Request)
    (st : State) (e : Exc) :
  fst (require_teacher dec request st) = Throw e ->
  (exists detail, e = HTTPException 401 detail []) \/ e = TypeError \/ e = LoadError.
Proof.
  unfold require_teacher, raise.
  destruct (authorization request) as [auth|];
    [|intros H; injection H as <-; left; by eexists].
  destruct (String.eqb auth ""); [intros H; injection H as <-; left; by eexists|].
  destruct (Py.partition " "%char auth) as [[scheme sep] param].
  destruct (negb (String.eqb (Py.lower scheme) "basic"));
    [intros H; injection H as <-; left; by eexists|].
  destruct (dec param) as [decoded|]; [|intros H; injection H as <-; left; by eexists].
  destruct (Py.partition ":"%char decoded) as [[u sep'] p].
  unfold load_teachers, bind, get, ret, raise. simpl.
  destruct (teachers_json st) as [teachers|].
  - intros H. destruct (require_loop_errors u p teachers st e H) as [->| ->].
    + left. by eexists.
    + by right; left.
  - intros H. injection H as <-. by right; right.
Qed.

Lemma require_loop_ret (u p t : string) (teachers : list Teacher) (st : State) :
  fst (require_loop u p teachers st) = Ret t ->
  t = u /\ exists teacher, teacher ∈ teachers /\ username teacher = u /\ password teacher = p.
Proof.
  induction teachers as [|teacher ts IH]; simpl; [discriminate|].
  destruct (String.eqb u (username teacher)) eqn:Eu.
  - unfold bind, compare_digest, ret, raise.
    destruct (Py.is_ascii p && Py.is_ascii (password teacher))%bool; [|discriminate].
    destruct (String.eqb p (password teacher)) eqn:Ep.
    + intros H. injection H as <-. split; [done|].
      apply String.eqb_eq in Eu, Ep. exists teacher.
      split; [apply list_elem_here|done].
    + intros H. destruct (IH H) as [-> (t' & Ht' & H1 & H2)]. split; [done|].
      exists t'. split; [by apply list_elem_further|done].
  - intros H. destruct (IH H) as [-> (t' & Ht' & H1 & H2)]. split; [done|].
    exists t'. split; [by apply list_elem_further|done].
Qed.

Lemma require_teacher_ret (dec : string -> option string) (request : Request)
    (st : State) (t : string) :
  fst (require_teacher dec request st) = Ret t ->
  exists teachers teacher, teachers_json st = Some teachers /\
    teacher ∈ teachers /\ username teacher = t.
Proof.
  unfold require_teacher, raise.
  destruct (authorization request) as [auth|]; [|discriminate].
  destruct (String.eqb auth ""); [discriminate|].
  destruct (Py.partition " "%char auth) as [[scheme sep] param].
  destruct (negb (String.eqb (Py.lower scheme) "basic")); [discriminate|].
  destruct (dec param) as [decoded|]; [|discriminate].
  destruct (Py.partition ":"%char decoded) as [[u sep'] p].
  unfold load_teachers, bind, get, ret, raise. simpl.
  destruct (teachers_json st) as [teachers|]; [|discriminate].
  intros H. destruct (require_loop_ret u p t teachers st H) as [-> (t' & Ht' & H1 & _)].
  by exists teachers, t'.
Qed.

(** X10: signup and unregister end in one of few ways: a 200 response, an
    HTTP error 400, 401 or 404, or a server error caused by
    [compare_digest]'s TypeError or by a failed load of [teachers.json];
    the [ValueError] of [list.remove] never escapes. *)
Theorem registry_handler_outcomes (dec : string -> option string) (st : State)
    (activity_name email : string) (request : Request) :
  (match fst (signup_for_activity dec activity_name email request st) with
   | Ret r => status r = 200
   | Throw (HTTPException code _ _) => code = 400 \/ code = 401 \/ code = 404
   | Throw e => e = TypeError \/ e = LoadError
   end) /\
  (match fst (unregister_from_activity dec activity_name email request st) with
   | Ret r => status r = 200
   | Throw (HTTPException code _ _) => code = 400 \/ code = 401 \/ code = 404
   | Throw e => e = TypeError \/ e = LoadError
   end).
Proof.
  destruct (fst (require_teacher dec request st)) as [teacher|e] eqn:Hauth.
  - destruct (activities st !! activity_name) as [activity|] eqn:Hact.
    + destruct (decide (email ∈ participants activity)) as [Hin|Hn].
      * rewrite (signup_duplicate dec st activity_name email request teacher Hauth
                   activity Hact Hin).
        destruct (unregister_present dec st activity_name email request teacher Hauth
                    activity Hact Hin) as (pre & post & _ & _ & ->).
        simpl. split; [by left|done].
      * rewrite (signup_new dec st activity_name email request teacher Hauth activity Hact Hn),
          (unregister_absent dec st activity_name email request teacher Hauth activity Hact Hn).
        simpl. split; [done|by left].
    + rewrite (signup_missing dec st activity_name email request teacher Hauth Hact),
        (unregister_missing dec st activity_name email request teacher Hauth Hact).
      simpl. split; by right; right.
  - rewrite (signup_auth_failed dec st activity_name email request e Hauth),
      (unregister_auth_failed dec st activity_name email request e Hauth). simpl.
    destruct (require_teacher_errors dec request st e Hauth) as [[d ->] | [-> | ->]];
      split; simpl; auto.
Qed.

(** X11: a signup or unregister that succeeds was authorised: Path B
    accepted a username that is the username of an entry of
    [teachers.json], and the confirmation message starts with
    "Teacher " followed by that username. *)
Theorem registry_success_requires_teacher (dec : string -> option string) (st st' : State)
    (activity_name email : string) (request : Request) (r : Response) :
  signup_for_activity dec activity_name email request st = (Ret r, st') \/
  unregister_from_activity dec activity_name email request st = (Ret r, st') ->
  exists teacher_name teachers teacher rest,
    fst (require_teacher dec request st) = Ret teacher_name /\
    teachers_json st = Some teachers /\ teacher ∈ teachers /\
    username teacher = teacher_name /\
    message r = "Teacher " +:+ teacher_name +:+ rest.
Proof.
  intros Hok.
  destruct (fst (require_teacher dec request st)) as [teacher|e] eqn:Hauth.
  - destruct (require_teacher_ret dec request st teacher Hauth) as (ts & t & Hj & Ht & Htu).
    destruct (activities st !! activity_name) as [activity|] eqn:Hact.
    + destruct (decide (email ∈ participants activity)) as [Hin|Hn].
      * rewrite (signup_duplicate dec st activity_name email request teacher Hauth
                   activity Hact Hin) in Hok.
        destruct (unregister_present dec st activity_name email request teacher Hauth
                    activity Hact Hin) as (pre & post & _ & _ & Heq).
        rewrite Heq in Hok. destruct Hok as [H|H]; [discriminate|].
        injection H as <- _. exists teacher, ts, t. by eexists.
      * rewrite (signup_new dec st activity_name email request teacher Hauth activity Hact Hn),
          (unregister_absent dec st activity_name email request teacher Hauth activity Hact Hn)
          in Hok.
        destruct Hok as [H|H]; [|discriminate].
        injection H as <- _. exists teacher, ts, t. by eexists.
    + rewrite (signup_missing dec st activity_name email request teacher Hauth Hact),
        (unregister_missing dec st activity_name email request teacher Hauth Hact) in Hok.
      by destruct Hok.
  - rewrite (signup_auth_failed dec st activity_name email request e Hauth),
      (unregister_auth_failed dec st activity_name email request e Hauth) in Hok.
    by destruct Hok.
Qed.

Lemma registry_success_requires_teacher_witness :
  signup_for_activity plain_decoder "Chess Club" "isabella@mergington.edu" teacher_request
    initial_state =
    (Ret (mkResponse 200 "Teacher msmith signed up isabella@mergington.edu for Chess Club"),
     snd (signup_for_activity plain_decoder "Chess Club" "isabella@mergington.edu"
            teacher_request initial_state)) /\
  exists teacher_name teachers teacher rest,
    fst (require_teacher plain_decoder teacher_request initial_state) = Ret teacher_name /\
    teachers_json initial_state = Some teachers /\ teacher ∈ teachers /\
    username teacher = teacher_name /\
    message (mkResponse 200 "Teacher msmith signed up isabella@mergington.edu for Chess Club")
      = "Teacher " +:+ teacher_name +:+ rest.
Proof.
  assert (H : signup_for_activity plain_decoder "Chess Club" "isabella@mergington.edu"
                teacher_request initial_state =
              (Ret (mkResponse 200 "Teacher msmith signed up isabella@mergington.edu for Chess Club"),
               snd (signup_for_activity plain_decoder "Chess Club" "isabella@mergington.edu"
                      teacher_request initial_state))) by (vm_compute; reflexivity).
  split; [exact H|].
  exact (registry_success_requires_teacher plain_decoder initial_state _ "Chess Club"
           "isabella@mergington.edu" teacher_request _ (or_introl H)).
Defined.

Lemma start_state_invariant (teachers_file : option (list Teacher)) :
  app_invariant teachers_file (start_state teachers_file).
Proof.
  split; [|split; [|split]].
  - change (map_Forall (fun _ activity => NoDup (participants activity)) initial_activities).
    apply (bool_decide_unpack _). vm_compute. exact I.
  - done.
  - done.
  - intros u Hu. simpl in Hu. set_solver.
Qed.

Lemma update_participants_invariant (teachers_file : option (list Teacher)) (st : State)
    (activity_name : string) (activity : Activity) (ps : list string) :
  app_invariant teachers_file st ->
  activities st !! activity_name = Some activity -> NoDup ps ->
  app_invariant teachers_file (update_participants activity_name activity ps st).
Proof.
  intros (Hnd & Hhdr & Hj & Hlog) Hact Hps.
  destruct (update_participants_frame activity_name activity ps st Hact)
    as (Hl & Hj' & Hother & Hh).
  split; [by apply update_participants_nodup|]. split; [|split].
  - intros k. destruct (decide (k = activity_name)) as [->|Hk].
    + rewrite Hh. apply Hhdr.
    + rewrite (Hother k Hk). apply Hhdr.
  - by rewrite Hj'.
  - rewrite Hl. exact Hlog.
Qed.

Lemma step_preserves_invariant (dec : string -> option string)
    (teachers_file : option (list Teacher)) (st st' : State) :
  app_invariant teachers_file st -> step dec st st' -> app_invariant teachers_file st'.
Proof.
  intros Hinv Hstep. destruct Hstep as [n e req st|n e req st|c st|c st|st].
  - destruct (signup_state_cases dec st n e req) as [-> | (a & Hact & Hn & ->)]; [done|].
    apply update_participants_invariant; [done|done|].
    apply nodup_snoc; [|done]. destruct Hinv as [Hnd _]. exact (Hnd _ _ Hact).
  - destruct (unregister_state_cases dec st n e req)
      as [-> | (a & pre & post & Hact & Hps & ->)]; [done|].
    apply update_participants_invariant; [done|done|].
    destruct Hinv as [Hnd _]. pose proof (Hnd _ _ Hact) as Ha. simpl in Ha.
    rewrite Hps in Ha. apply (nodup_remove_mid e pre post Ha).
  - destruct (login_cases c st) as [(ts & t & Hj' & Ht & Htu & ->) | [ex ->]]; [|done].
    destruct Hinv as (Hnd & Hhdr & Hj & Hlog). simpl.
    split; [exact Hnd|]. split; [exact Hhdr|]. split; [exact Hj|].
    intros u Hu. apply elem_of_union in Hu as [Hu|Hu].
    + apply elem_of_singleton in Hu. subst u. exists ts, t. by rewrite <- Hj.
    + by apply Hlog.
  - destruct Hinv as (Hnd & Hhdr & Hj & Hlog).
    unfold logout, remove_logged_in, bind, get, put, ret. simpl.
    case_bool_decide; simpl; [|by split].
    split; [exact Hnd|]. split; [exact Hhdr|]. split; [exact Hj|].
    intros u Hu. apply Hlog. set_solver.
  - exact Hinv.
Qed.

Lemma steps_preserve_invariant (dec : string -> option string)
    (teachers_file : option (list Teacher)) (st st' : State) :
  rtc (step dec) st st' ->
  app_invariant teachers_file st -> app_invariant teachers_file st'.
Proof.
  induction 1 as [x|x y z Hxy Hyz IH]; [done|].
  intros Hx. apply IH. by apply (step_preserves_invariant dec teachers_file x y).
Qed.

(** X12: in every state reached from start-up by any sequence of signup,
    unregister, login, logout and activity-listing requests: no activity
    lists a participant twice; the activity names, descriptions, schedules
    and capacities are those of start-up; [teachers.json] is as it was read;
    and every username in the session set is the username of an entry of
    [teachers.json]. *)
Theorem reachable_states_invariant (dec : string -> option string)
    (teachers_file : option (list Teacher)) (st : State) :
  rtc (step dec) (start_state teachers_file) st ->
  app_invariant teachers_file st.
Proof.
  intros Hr. apply (steps_preserve_invariant dec teachers_file (start_state teachers_file));
    [exact Hr | apply start_state_invariant].
Qed.

Lemma reachable_states_invariant_witness :
  rtc (step plain_decoder) (start_state (Some sample_teachers))
    (snd (login (mkCreds "msmith" "s3cret")
       (snd (signup_for_activity plain_decoder "Chess Club" "isabella@mergington.edu"
               teacher_request (start_state (Some sample_teachers)))))) /\
  app_invariant (Some sample_teachers)
    (snd (login (mkCreds "msmith" "s3cret")
       (snd (signup_for_activity plain_decoder "Chess Club" "isabella@mergington.edu"
               teacher_request (start_state (Some sample_teachers)))))).
Proof.
  assert (H : rtc (step plain_decoder) (start_state (Some sample_teachers))
    (snd (login (mkCreds "msmith" "s3cret")
       (snd (signup_for_activity plain_decoder "Chess Club" "isabella@mergington.edu"
               teacher_request (start_state (Some sample_teachers))))))).
  { eapply rtc_l; [apply step_signup|]. apply rtc_once, step_login. }
  split; [exact H|].
  exact (reachable_states_invariant plain_decoder (Some sample_teachers) _ H).
Defined.
